(** * NextGen Logistics dashboard: the data pipeline of [app.py]

    A shallow embedding of [load_data], [create_kpi_metrics] and
    [show_alerts] together with the pandas / numpy operations they call
    ([pd.merge], [groupby().agg], [Series.mode], [pd.cut], [sum(axis=1)],
    [replace], [mean], [head], [nlargest]).

    Numeric cells are float64 values.  They are modelled by [Numpy.float]:
    not-a-number, the two infinities and the finite values, the latter as
    exact rationals.  Rounding and the sign of zero are not modelled; nulls,
    infinities, comparisons and division by zero follow IEEE 754 as numpy
    applies it to a column. *)

From Stdlib Require Import ZArith QArith NArith List String Ascii Bool Arith Lia.
From Stdlib Require Import Sorting.Mergesort Sorting.Permutation Sorting.Sorted.
From Stdlib Require Import Orders Finite.
Import ListNotations.

Local Open Scope string_scope.
Local Open Scope list_scope.
Local Open Scope Q_scope.

(* ================================================================== *)
(** ** numpy: float64 cells *)

Module Numpy.

Inductive float : Type :=
| nan
| neg_inf
| fin (q : Q)
| inf.

Definition Qlt_bool (p q : Q) : bool := negb (Qle_bool q p).

Definition isnan (x : float) : bool :=
  match x with nan => true | _ => false end.

(** [x < y], [x <= y], [x == y] on cells: every comparison with NaN is False. *)
Definition flt (x y : float) : bool :=
  match x, y with
  | nan, _ | _, nan => false
  | _, neg_inf => false
  | neg_inf, _ => true
  | inf, _ => false
  | fin _, inf => true
  | fin p, fin q => Qlt_bool p q
  end.

Definition fle (x y : float) : bool :=
  match x, y with
  | nan, _ | _, nan => false
  | neg_inf, _ => true
  | _, neg_inf => false
  | _, inf => true
  | inf, _ => false
  | fin p, fin q => Qle_bool p q
  end.

Definition feqb (x y : float) : bool :=
  match x, y with
  | neg_inf, neg_inf => true
  | inf, inf => true
  | fin p, fin q => Qeq_bool p q
  | _, _ => false
  end.

Definition fneg (x : float) : float :=
  match x with
  | nan => nan
  | neg_inf => inf
  | fin q => fin (- q)
  | inf => neg_inf
  end.

Definition fadd (x y : float) : float :=
  match x, y with
  | nan, _ | _, nan => nan
  | inf, neg_inf | neg_inf, inf => nan
  | inf, _ | _, inf => inf
  | neg_inf, _ | _, neg_inf => neg_inf
  | fin p, fin q => fin (p + q)
  end.

Definition fsub (x y : float) : float := fadd x (fneg y).

Definition fmul (x y : float) : float :=
  match x, y with
  | nan, _ | _, nan => nan
  | fin p, fin q => fin (p * q)
  | fin p, i | i, fin p =>
      if Qeq_bool p 0 then nan
      else if Qlt_bool 0 p then i else fneg i
  | inf, inf | neg_inf, neg_inf => inf
  | inf, neg_inf | neg_inf, inf => neg_inf
  end.

(** True division of two columns, cell by cell: a zero divisor gives an
    infinity of the sign of the dividend, and NaN for [0 / 0]. *)
Definition fdiv (x y : float) : float :=
  match x, y with
  | nan, _ | _, nan => nan
  | fin p, fin q =>
      if Qeq_bool q 0 then
        if Qeq_bool p 0 then nan
        else if Qlt_bool 0 p then inf else neg_inf
      else fin (p / q)
  | fin _, _ => fin 0
  | i, fin q => if Qlt_bool q 0 then fneg i else i
  | _, _ => nan
  end.

(** Equality of cells up to the representation of a rational. *)
Definition feq (x y : float) : Prop :=
  match x, y with
  | nan, nan => True
  | neg_inf, neg_inf => True
  | inf, inf => True
  | fin p, fin q => p == q
  | _, _ => False
  end.

Definition of_nat (n : nat) : float := fin (inject_Z (Z.of_nat n)).

Definition of_bool (b : bool) : float := if b then fin 1 else fin 0.

(** [np.searchsorted(bins, x, side='left')] on an increasing [bins]: the
    number of leading bins strictly below [x]. *)
Fixpoint searchsorted_left (bins : list float) (x : float) : nat :=
  match bins with
  | [] => O
  | b :: bs => if flt b x then S (searchsorted_left bs x) else O
  end.

End Numpy.

Import Numpy.

(* ================================================================== *)
(** ** pandas: columns, joins, group-by and binning *)

Module StringOrder <: TotalLeBool.
Definition t := string.
Definition leb := String.leb.
Definition leb_total : forall x y, leb x y = true \/ leb y x = true :=
  String.leb_total.
End StringOrder.

Module StringSort := Sort StringOrder.

Module Pandas.

(** An object cell: a string, or null ([None], shown as NaN). *)
Definition cell := option string.

Definition cell_eqb (a b : cell) : bool :=
  match a, b with
  | Some x, Some y => String.eqb x y
  | None, None => true
  | _, _ => false
  end.

(** The test [column == 'text'] on one cell: a null cell is not equal. *)
Definition cell_is (a : cell) (s : string) : bool :=
  match a with Some x => String.eqb x s | None => false end.

Section Frames.
Context {L R A : Type}.

  (** [pd.merge(left, right, on=key, how='left')]: the rows of [left] in
      order, each paired with every row of [right] of the same key, in
      [right]'s order, or with nulls ([None]) when there is none.  Null keys
      match null keys. *)
Definition merge_left (kl : L -> cell) (kr : R -> cell)
      (left : list L) (right : list R) : list (L * option R) :=
    flat_map
      (fun l =>
         match filter (fun r => cell_eqb (kl l) (kr r)) right with
         | [] => [(l, None)]
         | ms => map (fun r => (l, Some r)) ms
         end)
      left.

  (** [df.head(n)] *)
Definition head (n : nat) (rows : list A) : list A := firstn n rows.

  (** [pd.cut(x, bins, labels)] on one cell, with the defaults [right=True]
      and [include_lowest=False]: label [i] is the interval
      [(bins[i], bins[i+1]]], and a cell outside every interval, or null,
      gets no category. *)
Definition cut (bins : list float) (labels : list A) (x : float) : option A :=
    let ids := searchsorted_left bins x in
    if isnan x || (ids =? List.length bins)%nat || (ids =? 0)%nat then None
    else nth_error labels (ids - 1).
End Frames.

Definition dropna (xs : list float) : list float :=
  filter (fun x => negb (isnan x)) xs.

Definition nan_to_zero (x : float) : float :=
  match x with nan => fin 0 | _ => x end.

(** [sum] with the default [skipna=True]: nulls count as 0, and the sum of
    no cell, or of nulls only, is 0. *)
Definition sum (xs : list float) : float :=
  fold_left fadd (map nan_to_zero xs) (fin 0).

(** [mean] with the default [skipna=True]: the sum over the count of the
    cells that are not null, and NaN when there is none. *)
Definition mean (xs : list float) : float :=
  match dropna xs with
  | [] => nan
  | ys => fdiv (sum ys) (of_nat (List.length ys))
  end.

(** The mean of a boolean column: True is 1, False is 0. *)
Definition mean_bool (bs : list bool) : float := mean (map of_bool bs).

(** [series.replace(0, np.nan)] on one cell *)
Definition replace_0_nan (x : float) : float :=
  if feqb x (fin 0) then nan else x.

(** The values of a column without nulls. *)
Fixpoint dropna_cells (xs : list cell) : list string :=
  match xs with
  | [] => []
  | Some s :: t => s :: dropna_cells t
  | None :: t => dropna_cells t
  end.

(** [pd.unique]: the distinct values, in order of first appearance. *)
Fixpoint unique (xs : list string) : list string :=
  match xs with
  | [] => []
  | x :: t => x :: filter (fun y => negb (String.eqb x y)) (unique t)
  end.

Definition count (v : string) (xs : list string) : nat :=
  count_occ string_dec xs v.

(** The values of [xs] that occur most often, in order of first appearance. *)
Definition most_frequent (xs : list string) : list string :=
  let keys := unique xs in
  let top := list_max (map (fun k => count k xs) keys) in
  filter (fun k => (count k xs =? top)%nat) keys.

(** [series.mode()] with the default [dropna=True]: the most frequent
    values that are not null, sorted. *)
Definition mode (xs : list cell) : list string :=
  StringSort.sort (most_frequent (dropna_cells xs)).

(** Sorting (index, value) rows by decreasing value, rows of equal value
    staying in their order. *)
Fixpoint insert_desc (x : string * float) (rows : list (string * float))
    : list (string * float) :=
  match rows with
  | [] => [x]
  | y :: t => if flt (snd x) (snd y) then y :: insert_desc x t else x :: rows
  end.

Definition sort_values_desc (rows : list (string * float)) : list (string * float) :=
  fold_right insert_desc [] rows.

(** [series.nlargest(n)] on a series of (index, value) rows, with the
    default [keep='first']: the first [n] rows of the series sorted by
    decreasing value, the rows with a null value last, in their order. *)
Definition nlargest (n : nat) (rows : list (string * float)) : list (string * float) :=
  firstn n
    (sort_values_desc (filter (fun r => negb (isnan (snd r))) rows)
     ++ filter (fun r => isnan (snd r)) rows).

(** The group keys of [df.groupby(key)] with the defaults [sort=True] and
    [dropna=True]: the distinct keys that are not null, sorted. *)
Definition group_keys (ks : list cell) : list string :=
  StringSort.sort (unique (dropna_cells ks)).

Section GroupBy.
Context {A : Type}.

  (** The rows of the group of key [k]. *)
Definition get_group (key : A -> cell) (rows : list A) (k : string) : list A :=
    filter (fun r => cell_is (key r) k) rows.

  (** [df.groupby(key)]: the keys with their groups. *)
Definition groupby (key : A -> cell) (rows : list A) : list (string * list A) :=
    map (fun k => (k, get_group key rows k)) (group_keys (map key rows)).
End GroupBy.

End Pandas.

Import Pandas.

(* ================================================================== *)
(** ** app.py: the tables *)

(** A parsed date ([pd.to_datetime]); parsing itself is not modelled. *)
Definition datetime := option Z.

(** [orders.csv] *)
Module Order.
Record row : Type := mk {
  Order_ID : cell;
  Order_Date : datetime;
  Priority : cell;
  Product_Category : cell;
  Order_Value_INR : float;
  Promised_Delivery_Days : float }.
End Order.

(** [delivery_performance.csv] *)
Module Delivery.
Record row : Type := mk {
  Order_ID : cell;
  Actual_Delivery_Days : float }.
End Delivery.

(** [routes_distance.csv] *)
Module Route.
Record row : Type := mk {
  Order_ID : cell;
  Route : cell;
  Origin : cell;
  Destination : cell;
  Distance_KM : float;
  Carrier : cell }.
End Route.

(** [cost_breakdown.csv] *)
Module Cost.
Record row : Type := mk {
  Order_ID : cell;
  Fuel_Cost : float;
  Labor_Cost : float;
  Vehicle_Maintenance : float;
  Insurance : float;
  Packaging_Cost : float;
  Technology_Platform_Fee : float;
  Other_Overhead : float }.
End Cost.

(** [customer_feedback.csv] *)
Module Feedback.
Record row : Type := mk {
  Order_ID : cell;
  Rating : float;
  Issue_Category : cell }.
End Feedback.

(** [vehicle_fleet.csv], and the column [load_data] adds to it *)
Module Vehicle.
Record row : Type := mk {
  Vehicle_Type : cell;
  Fuel_Efficiency_KM_per_L : float;
  CO2_Emissions_Kg_per_KM : float }.

Record scored : Type := mk_scored {
  base : row;
  Efficiency_Score : float }.
End Vehicle.

(** [warehouse_inventory.csv], and the columns [load_data] adds to it *)
Module Warehouse.
Record row : Type := mk {
  Product_Category : cell;
  Location : cell;
  Current_Stock_Units : float;
  Reorder_Level : float;
  Storage_Cost_per_Unit : float;
  Last_Restocked_Date : datetime }.

Record stocked : Type := mk_stocked {
  base : row;
  Stock_Ratio : float;
  Stock_Status : cell }.
End Warehouse.

(** The frame [merged]: one row of the joins with the derived columns. *)
Module Merged.
Record row : Type := mk {
  Order_ID : cell;
  Order_Date : datetime;
  Priority : cell;
  Product_Category : cell;
  Order_Value_INR : float;
  Promised_Delivery_Days : float;
  Actual_Delivery_Days : float;
  Route : cell;
  Origin : cell;
  Destination : cell;
  Distance_KM : float;
  Carrier : cell;
  Fuel_Cost : float;
  Labor_Cost : float;
  Vehicle_Maintenance : float;
  Insurance : float;
  Packaging_Cost : float;
  Technology_Platform_Fee : float;
  Other_Overhead : float;
  Rating : float;
  Issue_Category : cell;
  Delivery_Delay_Days : float;
  On_Time : bool;
  Delay_Severity : cell;
  Total_Cost : float;
  Cost_per_KM : float;
  Revenue_to_Cost_Ratio : float }.
End Merged.

(** What [load_data] returns. *)
Record Data : Type := mk_Data {
  orders : list Order.row;
  delivery : list Delivery.row;
  routes : list Route.row;
  vehicles : list Vehicle.scored;
  warehouse : list Warehouse.stocked;
  feedback : list Feedback.row;
  costs : list Cost.row;
  merged : list Merged.row }.

(* ================================================================== *)
(** ** app.py: [load_data] *)

(** The cell a left join gives a column of the right table: the matched
    row's cell, or a null. *)
Definition col {R : Type} (f : R -> float) (r : option R) : float :=
  match r with Some x => f x | None => nan end.

Definition col_obj {R : Type} (f : R -> cell) (r : option R) : cell :=
  match r with Some x => f x | None => None end.

(** The aggregation of [Issue_Category]:
    [lambda x: x.mode()[0] if len(x.mode()) > 0 else 'None'] *)
Definition modal_issue (x : list cell) : string :=
  match mode x with
  | m :: _ => m
  | [] => "None"
  end.

(** [feedback.groupby('Order_ID').agg({...}).reset_index()] *)
Definition feedback_agg (feedback : list Feedback.row) : list Feedback.row :=
  map (fun kg =>
         Feedback.mk (Some (fst kg))
           (mean (map Feedback.Rating (snd kg)))
           (Some (modal_issue (map Feedback.Issue_Category (snd kg)))))
      (groupby Feedback.Order_ID feedback).

(** A row of the four joins, before the derived columns. *)
Definition joined : Type :=
  Order.row * option Delivery.row * option Route.row * option Cost.row
  * option Feedback.row.

Definition joins (orders : list Order.row) (delivery : list Delivery.row)
    (routes : list Route.row) (costs : list Cost.row)
    (feedback : list Feedback.row) : list joined :=
  let merged := merge_left Order.Order_ID Delivery.Order_ID orders delivery in
  let merged :=
    merge_left (fun x => Order.Order_ID (fst x)) Route.Order_ID merged routes in
  let merged :=
    merge_left (fun x => Order.Order_ID (fst (fst x))) Cost.Order_ID merged costs in
  merge_left (fun x => Order.Order_ID (fst (fst (fst x)))) Feedback.Order_ID
    merged (feedback_agg feedback).

Definition delay_bins : list float := [neg_inf; fin 0; fin 2; fin 5; inf].

Definition delay_labels : list string :=
  ["On Time"; "Minor Delay (<2 days)"; "Moderate Delay (2-5 days)";
   "Major Delay (>5 days)"].

Definition cost_columns (c : option Cost.row) : list float :=
  [col Cost.Fuel_Cost c; col Cost.Labor_Cost c; col Cost.Vehicle_Maintenance c;
   col Cost.Insurance c; col Cost.Packaging_Cost c;
   col Cost.Technology_Platform_Fee c; col Cost.Other_Overhead c].

(** The derived columns of one joined row ("Calculate key metrics", "total
    cost", "efficiency metrics"). *)
Definition metrics (x : joined) : Merged.row :=
  let '(o, d, r, c, f) := x in
  let Actual_Delivery_Days := col Delivery.Actual_Delivery_Days d in
  let Distance_KM := col Route.Distance_KM r in
  let Delivery_Delay_Days :=
    fsub Actual_Delivery_Days (Order.Promised_Delivery_Days o) in
  let Total_Cost := sum (cost_columns c) in
  Merged.mk
    (Order.Order_ID o) (Order.Order_Date o) (Order.Priority o)
    (Order.Product_Category o) (Order.Order_Value_INR o)
    (Order.Promised_Delivery_Days o)
    Actual_Delivery_Days
    (col_obj Route.Route r) (col_obj Route.Origin r)
    (col_obj Route.Destination r) Distance_KM (col_obj Route.Carrier r)
    (col Cost.Fuel_Cost c) (col Cost.Labor_Cost c)
    (col Cost.Vehicle_Maintenance c) (col Cost.Insurance c)
    (col Cost.Packaging_Cost c) (col Cost.Technology_Platform_Fee c)
    (col Cost.Other_Overhead c)
    (col Feedback.Rating f) (col_obj Feedback.Issue_Category f)
    Delivery_Delay_Days
    (fle Delivery_Delay_Days (fin 0))
    (cut delay_bins delay_labels Delivery_Delay_Days)
    Total_Cost
    (fdiv Total_Cost (replace_0_nan Distance_KM))
    (fdiv (Order.Order_Value_INR o) (replace_0_nan Total_Cost)).

Definition stock_bins : list float :=
  [fin 0; fin (5 # 10); fin (8 # 10); fin (12 # 10); inf].

Definition stock_labels : list string := ["Critical"; "Low"; "Normal"; "Excess"].

(** "Prepare warehouse analysis" *)
Definition stock (w : Warehouse.row) : Warehouse.stocked :=
  let Stock_Ratio :=
    fdiv (Warehouse.Current_Stock_Units w) (Warehouse.Reorder_Level w) in
  Warehouse.mk_stocked w Stock_Ratio (cut stock_bins stock_labels Stock_Ratio).

(** "Prepare vehicle analysis" *)
Definition score (v : Vehicle.row) : Vehicle.scored :=
  Vehicle.mk_scored v
    (fdiv (Vehicle.Fuel_Efficiency_KM_per_L v) (Vehicle.CO2_Emissions_Kg_per_KM v)).

(** [load_data], from the seven tables read from the data folder.  Reading
    the files, and the [None] the function returns when the folder, a file
    or a column is missing, are outside the model: the tables are given,
    with the columns the code uses. *)
Definition load_data (orders : list Order.row) (delivery : list Delivery.row)
    (routes : list Route.row) (vehicles : list Vehicle.row)
    (warehouse : list Warehouse.row) (feedback : list Feedback.row)
    (costs : list Cost.row) : Data :=
  mk_Data orders delivery routes
    (map score vehicles)
    (map stock warehouse)
    feedback costs
    (map metrics (joins orders delivery routes costs feedback)).

(* ================================================================== *)
(** ** app.py: [create_kpi_metrics] *)

Record Kpi : Type := mk_Kpi {
  on_time_rate : float;
  avg_delay : float;
  avg_rating : float;
  total_orders : nat;
  total_revenue : float;
  total_cost : float }.

Definition create_kpi_metrics (data : Data) : Kpi :=
  let merged := merged data in
  mk_Kpi
    (fmul (mean_bool (map Merged.On_Time merged)) (fin 100))
    (mean (map Merged.Delivery_Delay_Days
             (filter (fun r => flt (fin 0) (Merged.Delivery_Delay_Days r)) merged)))
    (mean (map Merged.Rating merged))
    (List.length merged)
    (sum (map Merged.Order_Value_INR merged))
    (sum (map Merged.Total_Cost merged)).

(* ================================================================== *)
(** ** app.py: [show_alerts] *)

(** An alert box, by the values its text is formatted from. *)
Inductive alert : Type :=
| Critical_Stock_Alert (Product_Category Location : cell)
    (Current_Stock_Units Reorder_Level : float)
| Severe_Delay_Alert (Order_ID Origin Destination : cell)
    (Delivery_Delay_Days : float) (Carrier : cell)
| Low_Rating_Alert (alert_count : nat)
| High_Cost_Route (route : string) (cost : float).

Definition empty {A : Type} (rows : list A) : bool :=
  match rows with [] => true | _ => false end.

Definition critical_stock_alert (row : Warehouse.stocked) : alert :=
  Critical_Stock_Alert
    (Warehouse.Product_Category (Warehouse.base row))
    (Warehouse.Location (Warehouse.base row))
    (Warehouse.Current_Stock_Units (Warehouse.base row))
    (Warehouse.Reorder_Level (Warehouse.base row)).

Definition severe_delay_alert (row : Merged.row) : alert :=
  Severe_Delay_Alert (Merged.Order_ID row) (Merged.Origin row)
    (Merged.Destination row) (Merged.Delivery_Delay_Days row)
    (Merged.Carrier row).

(** A call returns a value or raises an exception. *)
Inductive exception : Type := TypeError.

Inductive outcome (A : Type) : Type :=
| Returns (value : A)
| Raises (e : exception).

Arguments Returns {A} value.
Arguments Raises {A} e.

(** The dtype of the cost columns of [merged], and so of [Total_Cost]: the
    costs table read from a file without data row has columns of dtype
    object, which the left join fills with nulls and [sum(axis=1)] keeps;
    with a data row the columns are float64. *)
Inductive dtype : Type := float64 | object.

Definition Total_Cost_dtype (data : Data) : dtype :=
  if empty (costs data) then object else float64.

(** [show_alerts].  [nlargest] raises a [TypeError] on a series of dtype
    object: the alerts built before step 4 are then lost, the function
    returning nothing. *)
Definition show_alerts (data : Data) : outcome (list alert) :=
  let merged := merged data in
  let warehouse := warehouse data in
  let alerts : list alert := [] in
  (* 1. Critical stock items *)
  let critical_stock :=
    filter (fun w => cell_is (Warehouse.Stock_Status w) "Critical") warehouse in
  let alerts :=
    if negb (empty critical_stock)
    then alerts ++ map critical_stock_alert (head 3 critical_stock)
    else alerts in
  (* 2. Severe delays *)
  let severe_delays :=
    filter (fun r => cell_is (Merged.Delay_Severity r) "Major Delay (>5 days)")
      merged in
  let alerts :=
    if negb (empty severe_delays)
    then alerts ++ map severe_delay_alert (head 2 severe_delays)
    else alerts in
  (* 3. Low customer ratings *)
  let low_ratings := filter (fun r => flt (Merged.Rating r) (fin 3)) merged in
  let alerts :=
    if negb (empty low_ratings)
    then alerts ++ [Low_Rating_Alert (List.length low_ratings)]
    else alerts in
  (* 4. High cost routes *)
  match Total_Cost_dtype data with
  | object => Raises TypeError
  | float64 =>
      let high_cost_routes :=
        nlargest 3
          (map (fun kg => (fst kg, mean (map Merged.Total_Cost (snd kg))))
             (groupby Merged.Route merged)) in
      let alerts :=
        if negb (empty high_cost_routes)
        then alerts
             ++ map (fun rc => High_Cost_Route (fst rc) (snd rc)) high_cost_routes
        else alerts in
      Returns alerts
  end.

(* ================================================================== *)
(** ** app.py: the second row of cards of [create_kpi_metrics] *)

(** [((total_revenue - total_cost) / total_revenue * 100)
     if total_revenue > 0 else 0] *)
Definition profit_margin (kpi : Kpi) : float :=
  if flt (fin 0) (total_revenue kpi)
  then fmul (fdiv (fsub (total_revenue kpi) (total_cost kpi)) (total_revenue kpi))
         (fin 100)
  else fin 0.

(* ================================================================== *)
(** ** app.py: the frames behind the charts of [create_visualizations] *)

(** The aggregation ['count']: the number of cells that are not null. *)
Definition count_notna (xs : list cell) : nat := List.length (dropna_cells xs).

(** [carrier_stats]: per carrier, the mean of [On_Time], [Rating] and
    [Total_Cost] and the count of [Order_ID], renamed [Order_Count]. *)
Module CarrierStats.
Record row : Type := mk {
  Carrier : string;
  On_Time : float;
  Rating : float;
  Total_Cost : float;
  Order_Count : nat }.
End CarrierStats.

Definition carrier_stats (merged : list Merged.row) : list CarrierStats.row :=
  map (fun kg =>
         CarrierStats.mk (fst kg)
           (mean_bool (map Merged.On_Time (snd kg)))
           (mean (map Merged.Rating (snd kg)))
           (mean (map Merged.Total_Cost (snd kg)))
           (count_notna (map Merged.Order_ID (snd kg))))
      (groupby Merged.Carrier merged).

(** [vehicle_efficiency]: per vehicle type, the means of the three columns. *)
Module VehicleEfficiency.
Record row : Type := mk {
  Vehicle_Type : string;
  Efficiency_Score : float;
  Fuel_Efficiency_KM_per_L : float;
  CO2_Emissions_Kg_per_KM : float }.
End VehicleEfficiency.

Definition vehicle_efficiency (vehicles : list Vehicle.scored)
    : list VehicleEfficiency.row :=
  map (fun kg =>
         VehicleEfficiency.mk (fst kg)
           (mean (map Vehicle.Efficiency_Score (snd kg)))
           (mean (map (fun v => Vehicle.Fuel_Efficiency_KM_per_L (Vehicle.base v))
                    (snd kg)))
           (mean (map (fun v => Vehicle.CO2_Emissions_Kg_per_KM (Vehicle.base v))
                    (snd kg))))
      (groupby (fun v => Vehicle.Vehicle_Type (Vehicle.base v)) vehicles).

(** [route_efficiency]: per route, the means of delay, total cost and
    distance, and the quotient of the last two as [Cost_per_KM]. *)
Module RouteEfficiency.
Record row : Type := mk {
  Route : string;
  Delivery_Delay_Days : float;
  Total_Cost : float;
  Distance_KM : float;
  Cost_per_KM : float }.
End RouteEfficiency.

Definition route_efficiency (merged : list Merged.row) : list RouteEfficiency.row :=
  map (fun kg =>
         let Total_Cost := mean (map Merged.Total_Cost (snd kg)) in
         let Distance_KM := mean (map Merged.Distance_KM (snd kg)) in
         RouteEfficiency.mk (fst kg)
           (mean (map Merged.Delivery_Delay_Days (snd kg)))
           Total_Cost Distance_KM
           (fdiv Total_Cost Distance_KM))
      (groupby Merged.Route merged).

(* ================================================================== *)
(** ** app.py: the filters and the stock lists of [main] *)

(** [series.isin(values)] on one cell; a null cell is in [values] when
    [values] has a null. *)
Definition isin (c : cell) (values : list cell) : bool :=
  existsb (cell_eqb c) values.

(** [filtered_data]: the unified set under the three selections of the
    side bar, each applied only when it is not empty. *)
Definition filtered_data (priorities selected_carriers : list string)
    (selected_categories : list cell) (merged : list Merged.row)
    : list Merged.row :=
  let filtered_data := merged in
  let filtered_data :=
    if negb (empty priorities)
    then filter (fun r => isin (Merged.Priority r) (map Some priorities))
           filtered_data
    else filtered_data in
  let filtered_data :=
    if negb (empty selected_carriers)
    then filter (fun r => isin (Merged.Carrier r) (map Some selected_carriers))
           filtered_data
    else filtered_data in
  let filtered_data :=
    if negb (empty selected_categories)
    then filter (fun r => isin (Merged.Product_Category r) selected_categories)
           filtered_data
    else filtered_data in
  filtered_data.

(** The options of the carrier filter,
    [data['merged']['Carrier'].dropna().unique()], and its default
    selection, the first three of them. *)
Definition carriers (merged : list Merged.row) : list string :=
  unique (dropna_cells (map Merged.Carrier merged)).

Definition default_carriers (merged : list Merged.row) : list string :=
  firstn (Nat.min 3 (List.length (carriers merged))) (carriers merged).

(** "Items needing immediate attention": every row of [critical_items] is
    listed. *)
Definition critical_items (data : Data) : list Warehouse.stocked :=
  filter (fun w => isin (Warehouse.Stock_Status w) [Some "Critical"; Some "Low"])
    (warehouse data).

(** "Excess stock that can be redistributed": the rows of
    [excess_items.head(5)] are listed. *)
Definition excess_items (data : Data) : list Warehouse.stocked :=
  filter (fun w => cell_is (Warehouse.Stock_Status w) "Excess") (warehouse data).

(* ================================================================== *)
(** ** Notions the statements use *)

(** The critical-stock alerts among the alerts, and the warehouse rows they
    are made from. *)
Definition is_critical_stock_alert (a : alert) : bool :=
  match a with Critical_Stock_Alert _ _ _ _ => true | _ => false end.

Definition is_critical (w : Warehouse.stocked) : bool :=
  cell_is (Warehouse.Stock_Status w) "Critical".

(** The tie-break the specification words: of the most frequent values,
    the one met first in input order (and "None" when there is no value). *)
Definition first_encountered_mode (x : list cell) : string :=
  match most_frequent (dropna_cells x) with
  | m :: _ => m
  | [] => "None"
  end.

(** The right-side part of a joined row is a row of that table with the
    order's key, or null when the table has no row with that key. *)
Definition matched {R : Type} (key : R -> cell) (table : list R)
    (k : cell) (o : option R) : Prop :=
  match o with
  | Some r => In r table /\ k = key r
  | None => forall r, In r table -> k <> key r
  end.

(** The three other kinds of alert. *)
Definition is_severe_delay_alert (a : alert) : bool :=
  match a with Severe_Delay_Alert _ _ _ _ _ => true | _ => false end.

Definition is_low_rating_alert (a : alert) : bool :=
  match a with Low_Rating_Alert _ => true | _ => false end.

Definition is_high_cost_route (a : alert) : bool :=
  match a with High_Cost_Route _ _ => true | _ => false end.

(** The low-rating alert of [show_alerts], if any. *)
Definition low_rating_section (merged : list Merged.row) : list alert :=
  let low_ratings := filter (fun r => flt (Merged.Rating r) (fin 3)) merged in
  if empty low_ratings then [] else [Low_Rating_Alert (List.length low_ratings)].

(** The mean total cost of each route, as [show_alerts] computes it. *)
Definition route_costs (merged : list Merged.row) : list (string * float) :=
  map (fun kg => (fst kg, mean (map Merged.Total_Cost (snd kg))))
    (groupby Merged.Route merged).

(** The alerts [show_alerts] returns when it returns: the four kinds, in
    this order. *)
Definition alert_sections (data : Data) : list alert :=
  map critical_stock_alert (head 3 (filter is_critical (warehouse data))) ++
  map severe_delay_alert
    (head 2 (filter (fun r => cell_is (Merged.Delay_Severity r)
                                "Major Delay (>5 days)") (merged data))) ++
  low_rating_section (merged data) ++
  map (fun rc => High_Cost_Route (fst rc) (snd rc))
    (nlargest 3 (route_costs (merged data))).

(** A cell that is a finite number. *)
Definition is_fin (x : float) : Prop :=
  match x with fin _ => True | _ => False end.

(** A cell that is a finite number or null. *)
Definition fin_or_null (x : float) : Prop :=
  match x with fin _ | nan => True | _ => False end.

(** The rational a finite cell holds, and 0 for a null. *)
Definition to_Q (x : float) : Q :=
  match x with fin q => q | _ => 0 end.

(** The sum of the rationals of a column of finite or null cells. *)
Definition Qsum (xs : list float) : Q :=
  fold_right (fun x acc => to_Q x + acc) 0 xs.

(** The order of decreasing value on (index, value) rows. *)
Definition value_ge (a b : string * float) : Prop :=
  fle (snd b) (snd a) = true.

(** Cells above 0, and cells that are 0 or above. *)
Definition positive (x : float) : Prop := flt (fin 0) x = true.

Definition nonnegative (x : float) : Prop := fle (fin 0) x = true.

(* ================================================================== *)
(** ** Sample tables *)

Module Sample.

Definition order_1 : Order.row :=
  Order.mk (Some "O1") None (Some "High") (Some "Food") (fin 1000) (fin 2).

Definition order_2 : Order.row :=
  Order.mk (Some "O2") None (Some "Low") (Some "Toys") (fin 500) (fin 3).

(** Two delivery rows of the same order. *)
Definition delivery_1 : Delivery.row := Delivery.mk (Some "O1") (fin 7).
Definition delivery_1_again : Delivery.row := Delivery.mk (Some "O1") (fin 4).

(** A delivery row whose day count is minus infinity. *)
Definition delivery_minus_infinity : Delivery.row :=
  Delivery.mk (Some "O1") neg_inf.

(** A route of distance 0. *)
Definition route_1 : Route.row :=
  Route.mk (Some "O1") (Some "Pune-Goa") (Some "Pune") (Some "Goa") (fin 0)
    (Some "BlueDart").

Definition cost_1 : Cost.row :=
  Cost.mk (Some "O1") (fin 100) (fin 50) (fin 0) (fin 0) (fin 0) (fin 0) (fin 0).

(** Two feedback rows of one order whose issue categories occur once each. *)
Definition feedback_late : Feedback.row :=
  Feedback.mk (Some "O1") (fin 4) (Some "Late").
Definition feedback_damaged : Feedback.row :=
  Feedback.mk (Some "O1") (fin 5) (Some "Damaged").

Definition stock_of (current reorder : Q) : Warehouse.row :=
  Warehouse.mk (Some "Food") (Some "Pune") (fin current) (fin reorder) (fin 1) None.

(** A vehicle with no emissions. *)
Definition vehicle_zero_emissions : Vehicle.row :=
  Vehicle.mk (Some "Electric Van") (fin 12) (fin 0).

End Sample.

(* ================================================================== *)
(** ** Facts about cells *)

Lemma Qlt_bool_iff (p q : Q) : Qlt_bool p q = true <-> p < q.
Proof.
  unfold Qlt_bool. rewrite negb_true_iff. split; intro H.
  - apply Qnot_le_lt. intro Hle. apply Qle_bool_iff in Hle. congruence.
  - destruct (Qle_bool q p) eqn:E; [|reflexivity].
    apply Qle_bool_iff in E. exfalso. exact (Qlt_not_le _ _ H E).
Qed.

Lemma Qlt_bool_false_iff (p q : Q) : Qlt_bool p q = false <-> q <= p.
Proof.
  unfold Qlt_bool. rewrite negb_false_iff. apply Qle_bool_iff.
Qed.

Lemma feq_refl (x : float) : feq x x.
Proof. destruct x; simpl; auto. reflexivity. Qed.

Lemma feq_trans (x y z : float) : feq x y -> feq y z -> feq x z.
Proof.
  destruct x, y, z; simpl; auto; try contradiction.
  intros H1 H2. rewrite H1. exact H2.
Qed.

Lemma feq_fin_inv (x : float) (q : Q) :
  feq x (fin q) -> exists p, x = fin p /\ p == q.
Proof.
  destruct x as [| |p|]; simpl; try contradiction.
  intro H. exists p. split; [reflexivity | exact H].
Qed.

Lemma fadd_feq_l (a b c : float) : feq a b -> feq (fadd a c) (fadd b c).
Proof.
  destruct a, b; simpl; try contradiction; intro H;
    destruct c; simpl; auto.
  rewrite H. reflexivity.
Qed.

Lemma fadd_0_l (x : float) : feq (fadd (fin 0) x) x.
Proof. destruct x; simpl; auto. apply Qplus_0_l. Qed.

Lemma fdiv_nan_r (x : float) : fdiv x nan = nan.
Proof. destruct x; reflexivity. Qed.

Lemma replace_0_nan_zero (x : float) : feq x (fin 0) -> replace_0_nan x = nan.
Proof.
  intro H. apply feq_fin_inv in H. destruct H as [p [-> Hp]].
  unfold replace_0_nan. simpl.
  apply Qeq_bool_iff in Hp. rewrite Hp. reflexivity.
Qed.

(* ================================================================== *)
(** ** Binning *)

Lemma cut_delay_fin (q : Q) :
  cut delay_bins delay_labels (fin q) =
  Some (if Qlt_bool 0 q then
          if Qlt_bool 2 q then
            if Qlt_bool 5 q then "Major Delay (>5 days)"
            else "Moderate Delay (2-5 days)"
          else "Minor Delay (<2 days)"
        else "On Time").
Proof.
  unfold cut, delay_bins, delay_labels.
  cbn [searchsorted_left flt isnan orb].
  destruct (Qlt_bool 0 q); [|reflexivity].
  destruct (Qlt_bool 2 q); [|reflexivity].
  destruct (Qlt_bool 5 q); reflexivity.
Qed.

Lemma cut_delay_inf : cut delay_bins delay_labels inf = Some "Major Delay (>5 days)".
Proof. reflexivity. Qed.

Lemma cut_stock_fin (q : Q) :
  cut stock_bins stock_labels (fin q) =
  if Qlt_bool 0 q then
    Some (if Qlt_bool (5 # 10) q then
            if Qlt_bool (8 # 10) q then
              if Qlt_bool (12 # 10) q then "Excess" else "Normal"
            else "Low"
          else "Critical")
  else None.
Proof.
  unfold cut, stock_bins, stock_labels.
  cbn [searchsorted_left flt isnan orb].
  destruct (Qlt_bool 0 q); [|reflexivity].
  destruct (Qlt_bool (5 # 10) q); [|reflexivity].
  destruct (Qlt_bool (8 # 10) q); [|reflexivity].
  destruct (Qlt_bool (12 # 10) q); reflexivity.
Qed.

Lemma Qlt_bool_compat_r (a p q : Q) : p == q -> Qlt_bool a p = Qlt_bool a q.
Proof.
  intro H. destruct (Qlt_bool a q) eqn:E.
  - apply Qlt_bool_iff. apply Qlt_bool_iff in E. rewrite H. exact E.
  - apply Qlt_bool_false_iff. apply Qlt_bool_false_iff in E. rewrite H. exact E.
Qed.

(* ================================================================== *)
(** ** The rows [load_data] returns *)

Lemma merged_row_metrics orders delivery routes vehicles warehouse feedback costs r :
  In r (merged (load_data orders delivery routes vehicles warehouse feedback costs)) ->
  exists x, In x (joins orders delivery routes costs feedback) /\ r = metrics x.
Proof.
  simpl. intro H. apply in_map_iff in H. destruct H as [x [Hx Hin]].
  exists x. split; [exact Hin | symmetry; exact Hx].
Qed.

Lemma warehouse_row_stock orders delivery routes vehicles ws feedback costs w :
  In w (warehouse (load_data orders delivery routes vehicles ws feedback costs)) ->
  exists w0, In w0 ws /\ w = stock w0.
Proof.
  simpl. intro H. apply in_map_iff in H. destruct H as [x [Hx Hin]].
  exists x. split; [exact Hin | symmetry; exact Hx].
Qed.

Lemma Delay_Severity_metrics (x : joined) :
  Merged.Delay_Severity (metrics x) =
  cut delay_bins delay_labels (Merged.Delivery_Delay_Days (metrics x)).
Proof. destruct x as [[[[o d] r] c] f]. reflexivity. Qed.

Lemma Stock_Status_stock (w : Warehouse.row) :
  Warehouse.Stock_Status (stock w) =
  cut stock_bins stock_labels (Warehouse.Stock_Ratio (stock w)).
Proof. reflexivity. Qed.

(** C2, the claim as stated fails: the bucketing is not exhaustive over
    the delays that are not null.  A delivery of minus infinitely many days
    gives a delay of minus infinity, which is not null and gets no label. *)
Lemma minus_infinite_delay_has_no_severity :
  merged (load_data [Sample.order_1] [Sample.delivery_minus_infinity]
            [] [] [] [] []) =
    [metrics (Sample.order_1, Some Sample.delivery_minus_infinity,
              None, None, None)] /\
  Merged.Delivery_Delay_Days
    (metrics (Sample.order_1, Some Sample.delivery_minus_infinity,
              None, None, None)) = neg_inf /\
  isnan (Merged.Delivery_Delay_Days
           (metrics (Sample.order_1, Some Sample.delivery_minus_infinity,
                     None, None, None))) = false /\
  Merged.Delay_Severity
    (metrics (Sample.order_1, Some Sample.delivery_minus_infinity,
              None, None, None)) = None.
Proof. repeat split. Qed.

(** C2, amended. In the unified set, a delay of exactly 0 is "On Time", of
    exactly 2 "Minor Delay" and of exactly 5 "Moderate Delay": a boundary
    value falls in the lower bucket.  Every delay that is neither null nor
    minus infinity gets one of the four labels; minus infinity lies below
    the first, open, bin edge. *)
Theorem delay_severity_boundaries
    orders delivery routes vehicles warehouse feedback costs r :
  In r (merged (load_data orders delivery routes vehicles warehouse feedback costs)) ->
  (feq (Merged.Delivery_Delay_Days r) (fin 0) ->
   Merged.Delay_Severity r = Some "On Time") /\
  (feq (Merged.Delivery_Delay_Days r) (fin 2) ->
   Merged.Delay_Severity r = Some "Minor Delay (<2 days)") /\
  (feq (Merged.Delivery_Delay_Days r) (fin 5) ->
   Merged.Delay_Severity r = Some "Moderate Delay (2-5 days)") /\
  (Merged.Delivery_Delay_Days r <> nan ->
   Merged.Delivery_Delay_Days r <> neg_inf ->
   exists label, In label delay_labels /\ Merged.Delay_Severity r = Some label).
Proof.
  intro Hr. apply merged_row_metrics in Hr. destruct Hr as [x [_ ->]].
  rewrite Delay_Severity_metrics.
  generalize (Merged.Delivery_Delay_Days (metrics x)). intro d.
  repeat split.
  - intro H. apply feq_fin_inv in H. destruct H as [p [-> Hp]].
    rewrite cut_delay_fin, (Qlt_bool_compat_r 0 p 0 Hp). reflexivity.
  - intro H. apply feq_fin_inv in H. destruct H as [p [-> Hp]].
    rewrite cut_delay_fin, (Qlt_bool_compat_r 0 p 2 Hp),
      (Qlt_bool_compat_r 2 p 2 Hp). reflexivity.
  - intro H. apply feq_fin_inv in H. destruct H as [p [-> Hp]].
    rewrite cut_delay_fin, (Qlt_bool_compat_r 0 p 5 Hp),
      (Qlt_bool_compat_r 2 p 5 Hp), (Qlt_bool_compat_r 5 p 5 Hp). reflexivity.
  - intros Hnan Hninf. destruct d as [| |q|]; try congruence.
    + rewrite cut_delay_fin.
      destruct (Qlt_bool 0 q); [destruct (Qlt_bool 2 q);
        [destruct (Qlt_bool 5 q)|]|]; eexists; (split; [|reflexivity]);
        simpl; auto.
    + rewrite cut_delay_inf. eexists. split; [|reflexivity]. simpl; auto.
Qed.

Lemma delay_severity_boundaries_witness :
  Merged.Delay_Severity
    (metrics (Sample.order_1, Some Sample.delivery_1, None, None, None)) =
  Some "Moderate Delay (2-5 days)".
Proof.
  destruct (delay_severity_boundaries
              [Sample.order_1] [Sample.delivery_1] [] [] [] [] []
              (metrics (Sample.order_1, Some Sample.delivery_1, None, None, None)))
    as (_ & _ & H5 & _).
  - simpl. left. reflexivity.
  - apply H5. simpl. reflexivity.
Defined.

(** C3, the claim as stated fails: a stock ratio of exactly 0.5 is
    "Critical" and not "Low", of exactly 0.8 "Low" and not "Normal", of
    exactly 1.2 "Normal" and not "Excess". *)
Lemma stock_status_boundary_not_upper :
  (Warehouse.Stock_Ratio (stock (Sample.stock_of 1 2)) = fin (1 # 2) /\
   Warehouse.Stock_Status (stock (Sample.stock_of 1 2)) = Some "Critical" /\
   Warehouse.Stock_Status (stock (Sample.stock_of 1 2)) <> Some "Low") /\
  (Warehouse.Stock_Ratio (stock (Sample.stock_of 4 5)) = fin (4 # 5) /\
   Warehouse.Stock_Status (stock (Sample.stock_of 4 5)) = Some "Low" /\
   Warehouse.Stock_Status (stock (Sample.stock_of 4 5)) <> Some "Normal") /\
  (Warehouse.Stock_Ratio (stock (Sample.stock_of 6 5)) = fin (6 # 5) /\
   Warehouse.Stock_Status (stock (Sample.stock_of 6 5)) = Some "Normal" /\
   Warehouse.Stock_Status (stock (Sample.stock_of 6 5)) <> Some "Excess").
Proof.
  repeat split; try reflexivity; simpl; discriminate.
Qed.

(** C3, amended. For every warehouse record, a stock ratio of exactly 0.5
    is classified "Critical", of exactly 0.8 "Low" and of exactly 1.2
    "Normal": a boundary value falls in the lower bucket. *)
Theorem stock_status_boundaries
    orders delivery routes vehicles ws feedback costs w :
  In w (warehouse (load_data orders delivery routes vehicles ws feedback costs)) ->
  (feq (Warehouse.Stock_Ratio w) (fin (5 # 10)) ->
   Warehouse.Stock_Status w = Some "Critical") /\
  (feq (Warehouse.Stock_Ratio w) (fin (8 # 10)) ->
   Warehouse.Stock_Status w = Some "Low") /\
  (feq (Warehouse.Stock_Ratio w) (fin (12 # 10)) ->
   Warehouse.Stock_Status w = Some "Normal").
Proof.
  intro Hw. apply warehouse_row_stock in Hw. destruct Hw as [w0 [_ ->]].
  rewrite Stock_Status_stock.
  generalize (Warehouse.Stock_Ratio (stock w0)). intro d.
  repeat split; intro H; apply feq_fin_inv in H; destruct H as [p [-> Hp]];
    rewrite cut_stock_fin.
  - rewrite (Qlt_bool_compat_r 0 p _ Hp), (Qlt_bool_compat_r (5 # 10) p _ Hp).
    reflexivity.
  - rewrite (Qlt_bool_compat_r 0 p _ Hp), (Qlt_bool_compat_r (5 # 10) p _ Hp),
      (Qlt_bool_compat_r (8 # 10) p _ Hp). reflexivity.
  - rewrite (Qlt_bool_compat_r 0 p _ Hp), (Qlt_bool_compat_r (5 # 10) p _ Hp),
      (Qlt_bool_compat_r (8 # 10) p _ Hp), (Qlt_bool_compat_r (12 # 10) p _ Hp).
    reflexivity.
Qed.

Lemma stock_status_boundaries_witness :
  Warehouse.Stock_Status (stock (Sample.stock_of 4 5)) = Some "Low".
Proof.
  destruct (stock_status_boundaries [] [] [] [] [Sample.stock_of 4 5] [] []
              (stock (Sample.stock_of 4 5))) as (_ & H8 & _).
  - simpl. left. reflexivity.
  - apply H8. simpl. reflexivity.
Defined.

(** C6. [Efficiency_Score] is the quotient of the two columns, with no
    guard on the divisor: a vehicle with emissions of exactly 0 and a
    positive fuel efficiency gets an infinite score, not a null one. *)
Theorem efficiency_score_zero_emissions :
  (forall v, Vehicle.Efficiency_Score (score v) =
             fdiv (Vehicle.Fuel_Efficiency_KM_per_L v)
                  (Vehicle.CO2_Emissions_Kg_per_KM v)) /\
  Vehicle.CO2_Emissions_Kg_per_KM Sample.vehicle_zero_emissions = fin 0 /\
  map Vehicle.Efficiency_Score
    (vehicles (load_data [] [] [] [Sample.vehicle_zero_emissions] [] [] [])) =
  [inf].
Proof. repeat split. Qed.

(* ================================================================== *)
(** ** The alerts of [show_alerts] *)

Section FilterFacts.
Context {A B : Type} (p : B -> bool) (f : A -> B).

Lemma filter_map_none (l : list A) :
  (forall x, p (f x) = false) -> filter p (map f l) = [].
Proof.
  intro H. induction l as [|x l IH]; simpl; [reflexivity|].
  rewrite H. exact IH.
Qed.

Lemma filter_map_all (l : list A) :
  (forall x, p (f x) = true) -> filter p (map f l) = map f l.
Proof.
  intro H. induction l as [|x l IH]; simpl; [reflexivity|].
  rewrite H, IH. reflexivity.
Qed.
End FilterFacts.

Lemma firstn_In {A : Type} (n : nat) (l : list A) (x : A) :
  In x (firstn n l) -> In x l.
Proof.
  revert l. induction n as [|n IH]; intros [|y l]; simpl; try tauto.
  intros [H|H]; [left; exact H | right; apply IH; exact H].
Qed.

Lemma firstn_min_length {A : Type} (n : nat) (l : list A) :
  firstn (Nat.min (List.length l) n) l = firstn n l.
Proof.
  destruct (Nat.le_gt_cases (List.length l) n) as [H|H].
  - rewrite Nat.min_l by exact H.
    rewrite firstn_all. symmetry. apply firstn_all2. exact H.
  - rewrite Nat.min_r by lia. reflexivity.
Qed.

(** What a call of [show_alerts] does: with a costs table without row it
    raises, and otherwise it returns the alerts of the four kinds, in order
    (the guards on empty frames change nothing). *)
Lemma show_alerts_outcome (data : Data) :
  show_alerts data =
  if empty (costs data) then Raises TypeError else Returns (alert_sections data).
Proof.
  unfold show_alerts, Total_Cost_dtype, alert_sections, low_rating_section.
  cbv zeta. destruct (empty (costs data)); [reflexivity|].
  fold is_critical. fold (route_costs (merged data)).
  set (critical_stock := filter is_critical (warehouse data)).
  set (severe_delays :=
         filter (fun r => cell_is (Merged.Delay_Severity r) _) (merged data)).
  set (low_ratings := filter (fun r => flt (Merged.Rating r) _) (merged data)).
  set (high_cost_routes := nlargest 3 _).
  f_equal.
  destruct critical_stock; destruct severe_delays; destruct low_ratings;
    destruct high_cost_routes; cbn [empty negb head firstn map app];
    rewrite ?app_nil_r; try reflexivity;
    rewrite <- ?app_assoc; reflexivity.
Qed.

Lemma show_alerts_returns (data : Data) :
  costs data <> [] -> show_alerts data = Returns (alert_sections data).
Proof.
  intro H. rewrite show_alerts_outcome.
  destruct (costs data); [congruence | reflexivity].
Qed.

Lemma show_alerts_raises (data : Data) :
  costs data = [] -> show_alerts data = Raises TypeError.
Proof.
  intro H. rewrite show_alerts_outcome, H. reflexivity.
Qed.

Lemma show_alerts_returned (data : Data) (alerts : list alert) :
  show_alerts data = Returns alerts ->
  costs data <> [] /\ alerts = alert_sections data.
Proof.
  rewrite show_alerts_outcome. destruct (costs data); simpl; intro H.
  - discriminate.
  - injection H as <-. split; [discriminate | reflexivity].
Qed.

Lemma low_rating_section_kind (p : alert -> bool) (merged : list Merged.row) :
  (forall n, p (Low_Rating_Alert n) = false) ->
  filter p (low_rating_section merged) = [].
Proof.
  intro H. unfold low_rating_section. cbv zeta.
  destruct (empty _); [reflexivity|]. simpl. rewrite H. reflexivity.
Qed.

(** The critical-stock alerts of a returning call are those of the first
    three critical rows of the warehouse table, in order. *)
Lemma alert_sections_critical (data : Data) :
  filter is_critical_stock_alert (alert_sections data) =
  map critical_stock_alert (head 3 (filter is_critical (warehouse data))).
Proof.
  unfold alert_sections. rewrite !filter_app.
  rewrite (filter_map_all is_critical_stock_alert critical_stock_alert)
    by reflexivity.
  rewrite (filter_map_none is_critical_stock_alert severe_delay_alert)
    by reflexivity.
  rewrite (filter_map_none is_critical_stock_alert
             (fun rc => High_Cost_Route (fst rc) (snd rc))) by reflexivity.
  rewrite low_rating_section_kind by reflexivity.
  rewrite !app_nil_r. reflexivity.
Qed.

(** C8. With [n] warehouse records of status "Critical" and a costs table
    that has a row, [show_alerts] returns exactly [min n 3] critical-stock
    alerts: those of the first [min n 3] such records, in input order.  With
    a costs table without row, it raises a [TypeError] at its last step and
    emits no alert, however many records are critical. *)
Theorem critical_stock_alerts_capped (data : Data) :
  let critical := filter is_critical (warehouse data) in
  let n := List.length critical in
  (costs data <> [] ->
   exists alerts,
     show_alerts data = Returns alerts /\
     filter is_critical_stock_alert alerts =
       map critical_stock_alert (firstn (Nat.min n 3) critical) /\
     List.length (filter is_critical_stock_alert alerts) = Nat.min n 3) /\
  (costs data = [] -> show_alerts data = Raises TypeError).
Proof.
  intros critical n. split; [|apply show_alerts_raises].
  intro Hcosts. exists (alert_sections data).
  split; [apply show_alerts_returns; exact Hcosts|].
  rewrite alert_sections_critical. fold critical. unfold head.
  split.
  - unfold n. rewrite firstn_min_length. reflexivity.
  - rewrite length_map, length_firstn. fold n. apply Nat.min_comm.
Qed.

Lemma critical_stock_alerts_capped_witness :
  (exists alerts,
     show_alerts
       (load_data [] [] [] [] [Sample.stock_of 1 2] [] [Sample.cost_1]) =
     Returns alerts /\
     List.length (filter is_critical_stock_alert alerts) = 1%nat) /\
  show_alerts (load_data [] [] [] [] [Sample.stock_of 1 2] [] []) =
  Raises TypeError.
Proof.
  split.
  - destruct (critical_stock_alerts_capped
                (load_data [] [] [] [] [Sample.stock_of 1 2] [] [Sample.cost_1]))
      as [H _].
    destruct H as (alerts & E & _ & Hlen).
    + simpl. discriminate.
    + exists alerts. split; [exact E | exact Hlen].
  - destruct (critical_stock_alerts_capped
                (load_data [] [] [] [] [Sample.stock_of 1 2] [] []))
      as [_ H].
    apply H. reflexivity.
Defined.

(** Five critical records, with one that is not in between, and a cost
    row: three alerts, those of the first three critical records, in input
    order. *)
Example five_critical_records_three_alerts :
  show_alerts
    (load_data [] [] [] []
       [Sample.stock_of 1 2; Sample.stock_of 1 3; Sample.stock_of 4 5;
        Sample.stock_of 1 4; Sample.stock_of 1 5; Sample.stock_of 1 6] []
       [Sample.cost_1]) =
  Returns
    [Critical_Stock_Alert (Some "Food") (Some "Pune") (fin 1) (fin 2);
     Critical_Stock_Alert (Some "Food") (Some "Pune") (fin 1) (fin 3);
     Critical_Stock_Alert (Some "Food") (Some "Pune") (fin 1) (fin 4)].
Proof. vm_compute. reflexivity. Qed.

Lemma stock_status_zero (w : Warehouse.row) (c r : Q) :
  Warehouse.Current_Stock_Units w = fin c -> c == 0 ->
  Warehouse.Reorder_Level w = fin r -> 0 < r ->
  feq (Warehouse.Stock_Ratio (stock w)) (fin 0) /\
  Warehouse.Stock_Status (stock w) = None.
Proof.
  intros Hc Hc0 Hr Hr0.
  rewrite Stock_Status_stock. unfold stock; cbn [Warehouse.Stock_Ratio].
  rewrite Hc, Hr. unfold fdiv.
  assert (E : Qeq_bool r 0 = false).
  { destruct (Qeq_bool r 0) eqn:E; [|reflexivity].
    apply Qeq_bool_iff in E. rewrite E in Hr0.
    exfalso. exact (Qlt_irrefl 0 Hr0). }
  rewrite E.
  assert (Hq : c / r == 0).
  { rewrite Hc0. unfold Qdiv. apply Qmult_0_l. }
  split; [exact Hq|].
  rewrite cut_stock_fin, (Qlt_bool_compat_r 0 _ _ Hq). reflexivity.
Qed.

(** C9. A warehouse record with a current stock of 0 and a positive reorder
    level has a stock ratio of exactly 0 and a null [Stock_Status], not
    "Critical", and no call of [show_alerts] returns a critical-stock alert
    for it. *)
Theorem zero_stock_ratio_no_status
    orders delivery routes vehicles ws feedback costs (w : Warehouse.row) (c r : Q) :
  Warehouse.Current_Stock_Units w = fin c -> c == 0 ->
  Warehouse.Reorder_Level w = fin r -> 0 < r ->
  feq (Warehouse.Stock_Ratio (stock w)) (fin 0) /\
  Warehouse.Stock_Status (stock w) = None /\
  Warehouse.Stock_Status (stock w) <> Some "Critical" /\
  forall alerts,
    show_alerts (load_data orders delivery routes vehicles ws feedback costs) =
    Returns alerts ->
    ~ In (critical_stock_alert (stock w)) alerts.
Proof.
  intros Hc Hc0 Hr Hr0.
  destruct (stock_status_zero w c r Hc Hc0 Hr Hr0) as [Hratio Hstatus].
  repeat split; [exact Hratio | exact Hstatus | congruence |].
  intros alerts Hret Hin.
  apply show_alerts_returned in Hret. destruct Hret as [_ ->].
  assert (Hf : In (critical_stock_alert (stock w))
                 (filter is_critical_stock_alert
                    (alert_sections
                       (load_data orders delivery routes vehicles ws feedback costs)))).
  { apply filter_In. split; [exact Hin | reflexivity]. }
  rewrite alert_sections_critical in Hf.
  apply in_map_iff in Hf. destruct Hf as [w' [Heq Hw']].
  apply firstn_In, filter_In in Hw'. destruct Hw' as [Hw' Hcrit].
  apply warehouse_row_stock in Hw'. destruct Hw' as [w0 [_ ->]].
  unfold critical_stock_alert in Heq. cbn [Warehouse.base stock] in Heq.
  injection Heq as _ _ Hcur Hre.
  rewrite Hc in Hcur. rewrite Hr in Hre.
  destruct (stock_status_zero w0 c r Hcur Hc0 Hre Hr0) as [_ Hnone].
  unfold is_critical in Hcrit. rewrite Hnone in Hcrit. discriminate.
Qed.

Lemma zero_stock_ratio_no_status_witness :
  Warehouse.Stock_Status (stock (Sample.stock_of 0 5)) = None /\
  exists alerts,
    show_alerts
      (load_data [] [] [] []
         [Sample.stock_of 1 2; Sample.stock_of 0 5] [] [Sample.cost_1]) =
    Returns alerts /\
    ~ In (critical_stock_alert (stock (Sample.stock_of 0 5))) alerts.
Proof.
  destruct (zero_stock_ratio_no_status [] [] [] []
              [Sample.stock_of 1 2; Sample.stock_of 0 5] [] [Sample.cost_1]
              (Sample.stock_of 0 5) 0 5) as (_ & H1 & _ & H2).
  - reflexivity.
  - reflexivity.
  - reflexivity.
  - reflexivity.
  - split; [exact H1|].
    eexists. split; [vm_compute; reflexivity|].
    apply H2. vm_compute. reflexivity.
Defined.

(* ================================================================== *)
(** ** Left joins *)

Lemma cell_eqb_eq (a b : cell) : cell_eqb a b = true <-> a = b.
Proof.
  destruct a as [x|], b as [y|]; simpl; split; intro H;
    try discriminate; try reflexivity.
  - apply String.eqb_eq in H. congruence.
  - injection H as ->. apply String.eqb_refl.
Qed.

Section MergeFacts.
Context {L R : Type} (kl : L -> cell) (kr : R -> cell).

Lemma merge_left_In (left : list L) (right : list R) (l : L) (o : option R) :
  In (l, o) (merge_left kl kr left right) ->
  In l left /\
  match o with
  | Some r => In r right /\ kl l = kr r
  | None => forall r, In r right -> kl l <> kr r
  end.
Proof.
  unfold merge_left. intro H. apply in_flat_map in H.
  destruct H as [l' [Hl' H]].
  destruct (filter (fun r => cell_eqb (kl l') (kr r)) right) as [|m ms] eqn:E.
  - destruct H as [H|[]]. injection H as Hl Ho. rewrite <- Hl, <- Ho.
    split; [exact Hl'|].
    intros r Hr Hk.
    assert (Hin : In r (filter (fun r => cell_eqb (kl l') (kr r)) right)).
    { apply filter_In. split; [exact Hr | apply cell_eqb_eq; exact Hk]. }
    rewrite E in Hin. exact Hin.
  - apply in_map_iff in H. destruct H as [r [Hr Hin]].
    injection Hr as Hl Ho. rewrite <- Hl, <- Ho. split; [exact Hl'|].
    rewrite <- E in Hin. apply filter_In in Hin. destruct Hin as [Hin Hk].
    split; [exact Hin | apply cell_eqb_eq; exact Hk].
Qed.

(** A left join keeps the keys of the left table: none is dropped and none
    is new. *)
Lemma merge_left_keys {K : Type} (f : L -> K) (left : list L) (right : list R) (k : K) :
  In k (map (fun x => f (fst x)) (merge_left kl kr left right)) <->
  In k (map f left).
Proof.
  rewrite !in_map_iff. split.
  - intros [[l o] [Hk Hin]]. apply merge_left_In in Hin.
    exists l. split; [exact Hk | apply Hin].
  - intros [l [Hk Hin]]. unfold merge_left.
    destruct (filter (fun r => cell_eqb (kl l) (kr r)) right) as [|m ms] eqn:E.
    + exists (l, None). split; [exact Hk|].
      apply in_flat_map. exists l. split; [exact Hin|].
      rewrite E. left. reflexivity.
    + exists (l, Some m). split; [exact Hk|].
      apply in_flat_map. exists l. split; [exact Hin|].
      rewrite E. left. reflexivity.
Qed.

Lemma filter_key_NoDup (right : list R) (k : cell) :
  NoDup (map kr right) ->
  (List.length (filter (fun r => cell_eqb k (kr r)) right) <= 1)%nat.
Proof.
  induction right as [|a right IH]; simpl; intro H; [lia|].
  inversion H as [|? ? Hnotin Hnd]; subst.
  destruct (cell_eqb k (kr a)) eqn:E; [|apply IH; exact Hnd].
  apply cell_eqb_eq in E. subst k. simpl.
  assert (Hnil : filter (fun r => cell_eqb (kr a) (kr r)) right = []).
  { destruct (filter (fun r => cell_eqb (kr a) (kr r)) right) as [|b bs] eqn:F;
      [reflexivity|].
    exfalso. apply Hnotin.
    assert (Hb : In b (filter (fun r => cell_eqb (kr a) (kr r)) right))
      by (rewrite F; left; reflexivity).
    apply filter_In in Hb. destruct Hb as [Hb Hk].
    apply cell_eqb_eq in Hk. rewrite Hk. apply in_map. exact Hb. }
  rewrite Hnil. simpl. lia.
Qed.

(** When no key occurs twice in the right table, a left join gives exactly
    the rows of the left table, in order. *)
Lemma merge_left_unique_right (left : list L) (right : list R) :
  NoDup (map kr right) ->
  map fst (merge_left kl kr left right) = left.
Proof.
  intro H. unfold merge_left.
  induction left as [|l left IH]; [reflexivity|].
  cbn [flat_map]. rewrite map_app, IH. clear IH.
  pose proof (filter_key_NoDup right (kl l) H) as Hlen.
  destruct (filter (fun r => cell_eqb (kl l) (kr r)) right) as [|m [|m' ms]];
    simpl in *; try reflexivity. lia.
Qed.
End MergeFacts.

(* ================================================================== *)
(** ** The order of strings, sorting and distinct values *)

Lemma ascii_compare_refl (a : ascii) : Ascii.compare a a = Eq.
Proof. unfold Ascii.compare. apply N.compare_refl. Qed.

Lemma ascii_compare_lt_trans (a b c : ascii) :
  Ascii.compare a b = Lt -> Ascii.compare b c = Lt -> Ascii.compare a c = Lt.
Proof.
  unfold Ascii.compare. rewrite !N.compare_lt_iff. apply N.lt_trans.
Qed.

Lemma string_compare_lt_trans (s1 s2 s3 : string) :
  String.compare s1 s2 = Lt -> String.compare s2 s3 = Lt ->
  String.compare s1 s3 = Lt.
Proof.
  revert s2 s3.
  induction s1 as [|a s1 IH]; intros [|b s2] [|c s3]; simpl;
    try congruence.
  destruct (Ascii.compare a b) eqn:Eab; try discriminate;
    destruct (Ascii.compare b c) eqn:Ebc; try discriminate; intros H1 H2.
  - apply Ascii.compare_eq_iff in Eab, Ebc. subst.
    rewrite ascii_compare_refl. eapply IH; eassumption.
  - apply Ascii.compare_eq_iff in Eab. subst. rewrite Ebc. reflexivity.
  - apply Ascii.compare_eq_iff in Ebc. subst. rewrite Eab. reflexivity.
  - rewrite (ascii_compare_lt_trans a b c Eab Ebc). reflexivity.
Qed.

Lemma string_leb_trans (s1 s2 s3 : string) :
  String.leb s1 s2 = true -> String.leb s2 s3 = true -> String.leb s1 s3 = true.
Proof.
  unfold String.leb.
  destruct (String.compare s1 s2) eqn:E12; try discriminate;
    destruct (String.compare s2 s3) eqn:E23; try discriminate; intros _ _.
  - apply String.compare_eq_iff in E12. subst. rewrite E23. reflexivity.
  - apply String.compare_eq_iff in E12. subst. rewrite E23. reflexivity.
  - apply String.compare_eq_iff in E23. subst. rewrite E12. reflexivity.
  - rewrite (string_compare_lt_trans _ _ _ E12 E23). reflexivity.
Qed.

Lemma string_leb_transitive : Transitive (fun x y => is_true (StringOrder.leb x y)).
Proof. intros x y z. apply string_leb_trans. Qed.

(** The first value of a sorted list is one of the list's values and is not
    above any of them. *)
Lemma sort_head_least (l : list string) (m : string) (rest : list string) :
  StringSort.sort l = m :: rest ->
  In m l /\ forall v, In v l -> String.leb m v = true.
Proof.
  intro E.
  pose proof (StringSort.Permuted_sort l) as Hperm.
  pose proof (StringSort.StronglySorted_sort l string_leb_transitive) as Hs.
  rewrite E in Hperm, Hs.
  split.
  - apply (Permutation_in m (Permutation_sym Hperm)). left. reflexivity.
  - intros v Hv. apply (Permutation_in v Hperm) in Hv.
    destruct Hv as [<-|Hv].
    + destruct (String.leb_total m m) as [H|H]; exact H.
    + apply StronglySorted_inv in Hs. destruct Hs as [_ Hall].
      rewrite Forall_forall in Hall. apply Hall. exact Hv.
Qed.

Lemma sort_nil_inv (l : list string) : StringSort.sort l = [] -> l = [].
Proof.
  intro E. pose proof (StringSort.Permuted_sort l) as Hperm.
  rewrite E in Hperm. apply Permutation_sym, Permutation_nil in Hperm. exact Hperm.
Qed.

Lemma In_sort (l : list string) (x : string) : In x (StringSort.sort l) <-> In x l.
Proof.
  split; intro H.
  - apply (Permutation_in x (Permutation_sym (StringSort.Permuted_sort l))). exact H.
  - apply (Permutation_in x (StringSort.Permuted_sort l)). exact H.
Qed.

Lemma In_unique (l : list string) (x : string) : In x (unique l) <-> In x l.
Proof.
  induction l as [|a l IH]; simpl; [tauto|].
  rewrite filter_In, IH, negb_true_iff, String.eqb_neq.
  destruct (string_dec a x) as [->|Hne]; tauto.
Qed.

Lemma NoDup_unique (l : list string) : NoDup (unique l).
Proof.
  induction l as [|a l IH]; simpl; constructor.
  - rewrite filter_In, negb_true_iff, String.eqb_neq. tauto.
  - apply NoDup_filter. exact IH.
Qed.

Lemma In_dropna_cells (xs : list cell) (s : string) :
  In s (dropna_cells xs) <-> In (Some s) xs.
Proof.
  induction xs as [|[x|] xs IH]; simpl.
  - tauto.
  - rewrite IH. split; intros [H|H]; auto; left; congruence.
  - rewrite IH. split; [tauto|]. intros [H|H]; [discriminate | exact H].
Qed.

Lemma In_group_keys (ks : list cell) (k : string) :
  In k (group_keys ks) <-> In (Some k) ks.
Proof.
  unfold group_keys. rewrite In_sort, In_unique. apply In_dropna_cells.
Qed.

Lemma NoDup_group_keys (ks : list cell) : NoDup (group_keys ks).
Proof.
  unfold group_keys.
  apply (Permutation_NoDup (StringSort.Permuted_sort _)). apply NoDup_unique.
Qed.

(** The aggregated feedback has one row for each order of the feedback
    table whose key is not null. *)
Lemma feedback_agg_keys (feedback : list Feedback.row) :
  map Feedback.Order_ID (feedback_agg feedback) =
  map Some (group_keys (map Feedback.Order_ID feedback)).
Proof.
  unfold feedback_agg, groupby. rewrite !map_map. reflexivity.
Qed.

Lemma NoDup_feedback_agg (feedback : list Feedback.row) :
  NoDup (map Feedback.Order_ID (feedback_agg feedback)).
Proof.
  rewrite feedback_agg_keys.
  apply Injective_map_NoDup; [|apply NoDup_group_keys].
  intros x y H. congruence.
Qed.

(* ================================================================== *)
(** ** One unified row per order *)

Lemma Order_ID_metrics (x : joined) :
  Merged.Order_ID (metrics x) = Order.Order_ID (fst (fst (fst (fst x)))).
Proof. destruct x as [[[[o d] r] c] f]. reflexivity. Qed.

Lemma merged_order_ids orders delivery routes vehicles warehouse feedback costs :
  map Merged.Order_ID
    (merged (load_data orders delivery routes vehicles warehouse feedback costs)) =
  map (fun x => Order.Order_ID (fst (fst (fst (fst x)))))
    (joins orders delivery routes costs feedback).
Proof.
  simpl. rewrite map_map. apply map_ext. exact Order_ID_metrics.
Qed.

(** C1, the claim as stated fails: with two delivery rows for the one
    order of the orders table, the unified set has two rows of that
    [Order_ID]. *)
Lemma duplicate_delivery_duplicates_order :
  NoDup (map Order.Order_ID [Sample.order_1]) /\
  map Merged.Order_ID
    (merged (load_data [Sample.order_1]
               [Sample.delivery_1; Sample.delivery_1_again] [] [] [] [] [])) =
  [Some "O1"; Some "O1"] /\
  ~ NoDup (map Merged.Order_ID
             (merged (load_data [Sample.order_1]
                        [Sample.delivery_1; Sample.delivery_1_again]
                        [] [] [] [] []))).
Proof.
  split; [|split].
  - simpl. constructor; [simpl; tauto | constructor].
  - reflexivity.
  - intro H. change (NoDup [Some "O1"; Some "O1"]) in H.
    inversion H as [|? ? Hnotin _]. apply Hnotin. left. reflexivity.
Qed.

(** C1, amended. The [Order_ID]s of the unified set are those of the orders
    table, none dropped and none new, whatever the right-side tables.  When
    no [Order_ID] occurs twice in the delivery, routes and costs tables (the
    feedback is aggregated to one row per order by the code), the unified
    set has exactly the orders' rows, in order: one row per [Order_ID] when
    the orders' [Order_ID]s are unique. *)
Theorem unified_order_ids
    orders delivery routes vehicles warehouse feedback costs :
  let unified :=
    merged (load_data orders delivery routes vehicles warehouse feedback costs) in
  (forall k, In k (map Merged.Order_ID unified) <->
             In k (map Order.Order_ID orders)) /\
  (NoDup (map Delivery.Order_ID delivery) ->
   NoDup (map Route.Order_ID routes) ->
   NoDup (map Cost.Order_ID costs) ->
   map Merged.Order_ID unified = map Order.Order_ID orders /\
   (NoDup (map Order.Order_ID orders) -> NoDup (map Merged.Order_ID unified))).
Proof.
  intro unified. unfold unified. rewrite merged_order_ids. unfold joins.
  split.
  - intro k.
    rewrite (merge_left_keys _ _ (fun x => Order.Order_ID (fst (fst (fst x))))).
    rewrite (merge_left_keys _ _ (fun x => Order.Order_ID (fst (fst x)))).
    rewrite (merge_left_keys _ _ (fun x => Order.Order_ID (fst x))).
    rewrite (merge_left_keys _ _ Order.Order_ID).
    reflexivity.
  - intros Hd Hr Hc.
    assert (E : map (fun x => Order.Order_ID (fst (fst (fst (fst x)))))
                  (merge_left (fun x => Order.Order_ID (fst (fst (fst x))))
                     Feedback.Order_ID
                     (merge_left (fun x => Order.Order_ID (fst (fst x)))
                        Cost.Order_ID
                        (merge_left (fun x => Order.Order_ID (fst x))
                           Route.Order_ID
                           (merge_left Order.Order_ID Delivery.Order_ID
                              orders delivery)
                           routes)
                        costs)
                     (feedback_agg feedback)) =
                map Order.Order_ID orders).
    { rewrite <- (map_map fst (fun y => Order.Order_ID (fst (fst (fst y))))).
      rewrite merge_left_unique_right by apply NoDup_feedback_agg.
      rewrite <- (map_map fst (fun y => Order.Order_ID (fst (fst y)))).
      rewrite merge_left_unique_right by exact Hc.
      rewrite <- (map_map fst (fun y => Order.Order_ID (fst y))).
      rewrite merge_left_unique_right by exact Hr.
      rewrite <- (map_map fst Order.Order_ID).
      rewrite merge_left_unique_right by exact Hd.
      reflexivity. }
    split; [exact E|]. rewrite E. tauto.
Qed.

Lemma unified_order_ids_witness :
  map Merged.Order_ID
    (merged (load_data [Sample.order_1; Sample.order_2] [Sample.delivery_1]
               [Sample.route_1] [] []
               [Sample.feedback_late; Sample.feedback_damaged]
               [Sample.cost_1])) =
  [Some "O1"; Some "O2"].
Proof.
  destruct (unified_order_ids [Sample.order_1; Sample.order_2]
              [Sample.delivery_1] [Sample.route_1] [] []
              [Sample.feedback_late; Sample.feedback_damaged] [Sample.cost_1])
    as [_ H].
  destruct H as [H _].
  - simpl. constructor; [simpl; tauto | constructor].
  - simpl. constructor; [simpl; tauto | constructor].
  - simpl. constructor; [simpl; tauto | constructor].
  - exact H.
Defined.

(* ================================================================== *)
(** ** The aggregation of the feedback *)

Lemma list_max_attained {A : Type} (f : A -> nat) (l : list A) :
  l <> [] -> exists x, In x l /\ f x = list_max (map f l).
Proof.
  induction l as [|a l IH]; [congruence|]. intros _.
  destruct l as [|b l].
  - exists a. split; [left; reflexivity|]. simpl. lia.
  - destruct IH as [x [Hx Hfx]]; [discriminate|].
    change (list_max (map f (a :: b :: l)))
      with (Nat.max (f a) (list_max (map f (b :: l)))).
    destruct (Nat.max_spec (f a) (list_max (map f (b :: l)))) as [[_ E]|[_ E]];
      rewrite E.
    + exists x. split; [right; exact Hx | exact Hfx].
    + exists a. split; [left; reflexivity | reflexivity].
Qed.

Lemma count_le_top (xs : list string) (v : string) :
  (count v xs <= list_max (map (fun k => count k xs) (unique xs)))%nat.
Proof.
  destruct (Nat.eq_dec (count v xs) 0) as [E|E]; [lia|].
  assert (Hin : In v (unique xs)).
  { apply In_unique. apply (count_occ_In string_dec). unfold count in E. lia. }
  pose proof (proj1 (list_max_le (map (fun k => count k xs) (unique xs)) _)
                (Nat.le_refl _)) as Hall.
  rewrite Forall_forall in Hall. apply Hall.
  apply (in_map (fun k => count k xs)). exact Hin.
Qed.

(** The most frequent values are the values no other value occurs more
    often than. *)
Lemma most_frequent_In (xs : list string) (m : string) :
  In m (most_frequent xs) <->
  In m xs /\ forall v, (count v xs <= count m xs)%nat.
Proof.
  unfold most_frequent. rewrite filter_In, In_unique, Nat.eqb_eq.
  split; intros [Hin H]; (split; [exact Hin|]).
  - intro v. rewrite H. apply count_le_top.
  - apply Nat.le_antisymm; [apply count_le_top|].
    apply list_max_le. apply Forall_forall. intros n Hn.
    apply in_map_iff in Hn. destruct Hn as [k [<- _]]. apply H.
Qed.

Lemma most_frequent_nonempty (xs : list string) :
  xs <> [] -> most_frequent xs <> [].
Proof.
  intros Hne Hnil.
  assert (Hu : unique xs <> []).
  { destruct xs as [|x xs]; [congruence|]. simpl. discriminate. }
  destruct (list_max_attained (fun k => count k xs) (unique xs) Hu) as [m [Hm E]].
  assert (Hin : In m (most_frequent xs)).
  { unfold most_frequent. apply filter_In. split; [exact Hm|].
    apply Nat.eqb_eq. exact E. }
  rewrite Hnil in Hin. exact Hin.
Qed.

(** What the aggregation of [Issue_Category] returns: "None" for a group
    without a category, and otherwise the least, in the order of strings, of
    the categories that occur most often in the group. *)
Lemma modal_issue_spec (x : list cell) :
  let issues := dropna_cells x in
  (issues = [] -> modal_issue x = "None") /\
  (issues <> [] ->
   In (modal_issue x) issues /\
   (forall v, (count v issues <= count (modal_issue x) issues)%nat) /\
   (forall v, In v issues -> count v issues = count (modal_issue x) issues ->
              String.leb (modal_issue x) v = true)).
Proof.
  intro issues. unfold modal_issue, mode. fold issues. split.
  - intros ->. reflexivity.
  - intro Hne.
    destruct (StringSort.sort (most_frequent issues)) as [|m rest] eqn:E.
    + apply sort_nil_inv in E. exfalso.
      exact (most_frequent_nonempty issues Hne E).
    + apply sort_head_least in E. destruct E as [Hm Hleast].
      apply most_frequent_In in Hm. destruct Hm as [Hin Hmax].
      split; [exact Hin|]. split; [exact Hmax|].
      intros v Hv Hcount. apply Hleast. apply most_frequent_In.
      split; [exact Hv|]. intro u. rewrite Hcount. apply Hmax.
Qed.

Lemma map_nan_to_zero_dropna (l : list float) :
  map nan_to_zero (dropna l) = dropna l.
Proof.
  induction l as [|[| |q|] l IH]; simpl; congruence.
Qed.

(** The mean of a column is the sum of its cells that are not null over
    their number. *)
Lemma mean_ignores_nulls (l : list float) :
  mean l =
  match dropna l with
  | [] => nan
  | ys => fdiv (fold_left fadd ys (fin 0)) (of_nat (List.length ys))
  end.
Proof.
  unfold mean, sum.
  destruct (dropna l) as [|y ys] eqn:E; [reflexivity|].
  rewrite <- E, map_nan_to_zero_dropna. reflexivity.
Qed.

(** C7, the claim as stated fails: in a group whose categories "Late" and
    "Damaged" occur once each, in this order, the aggregation gives
    "Damaged", while the most frequent value met first is "Late". *)
Lemma modal_issue_tie_not_first_encountered :
  feedback_agg [Sample.feedback_late; Sample.feedback_damaged] =
    [Feedback.mk (Some "O1") (fin (9 # 2)) (Some "Damaged")] /\
  first_encountered_mode
    (map Feedback.Issue_Category [Sample.feedback_late; Sample.feedback_damaged]) =
    "Late" /\
  modal_issue
    (map Feedback.Issue_Category [Sample.feedback_late; Sample.feedback_damaged]) <>
  first_encountered_mode
    (map Feedback.Issue_Category [Sample.feedback_late; Sample.feedback_damaged]).
Proof.
  split; [|split].
  - vm_compute. reflexivity.
  - vm_compute. reflexivity.
  - vm_compute. discriminate.
Qed.

(** C7, amended. The aggregated feedback has exactly one row for each
    [Order_ID] of the feedback table.  Its [Rating] is the mean of the
    group's ratings, nulls ignored (null when all are null).  Its
    [Issue_Category] is the literal "None" when the group has no category,
    and otherwise a most frequent category of the group; among equally
    frequent categories it is the least one in the order of strings, not the
    one met first. *)
Theorem feedback_aggregation (feedback : list Feedback.row) :
  NoDup (map Feedback.Order_ID (feedback_agg feedback)) /\
  (forall k, In (Some k) (map Feedback.Order_ID (feedback_agg feedback)) <->
             In (Some k) (map Feedback.Order_ID feedback)) /\
  forall row, In row (feedback_agg feedback) ->
    exists k,
      Feedback.Order_ID row = Some k /\
      let group := get_group Feedback.Order_ID feedback k in
      let ratings := dropna (map Feedback.Rating group) in
      let issues := dropna_cells (map Feedback.Issue_Category group) in
      Feedback.Rating row =
        match ratings with
        | [] => nan
        | _ => fdiv (fold_left fadd ratings (fin 0)) (of_nat (List.length ratings))
        end /\
      exists m,
        Feedback.Issue_Category row = Some m /\
        (issues = [] -> m = "None") /\
        (issues <> [] ->
         In m issues /\
         (forall v, (count v issues <= count m issues)%nat) /\
         (forall v, In v issues -> count v issues = count m issues ->
                    String.leb m v = true)).
Proof.
  split; [apply NoDup_feedback_agg|]. split.
  - intro k. rewrite feedback_agg_keys. split; intro H.
    + apply in_map_iff in H. destruct H as [k' [E Hin]].
      injection E as ->. apply In_group_keys. exact Hin.
    + apply in_map. apply In_group_keys. exact H.
  - intros row Hrow. unfold feedback_agg, groupby in Hrow.
    rewrite map_map in Hrow. apply in_map_iff in Hrow.
    destruct Hrow as [k [<- _]]. cbn [fst snd].
    exists k. split; [reflexivity|]. cbn zeta. split.
    + cbn [Feedback.Rating]. rewrite mean_ignores_nulls.
      destruct (dropna _); reflexivity.
    + eexists. split; [reflexivity|].
      apply (modal_issue_spec
               (map Feedback.Issue_Category
                  (get_group Feedback.Order_ID feedback k))).
Qed.

Lemma feedback_aggregation_witness :
  exists m,
    Feedback.Issue_Category
      (Feedback.mk (Some "O1") (fin (9 # 2)) (Some "Damaged")) = Some m /\
    String.leb m "Late" = true.
Proof.
  destruct (feedback_aggregation [Sample.feedback_late; Sample.feedback_damaged])
    as (_ & _ & H).
  destruct (H (Feedback.mk (Some "O1") (fin (9 # 2)) (Some "Damaged")))
    as (k & Hk & _ & m & Hm & _ & Hties).
  - vm_compute. left. reflexivity.
  - exists m. split; [exact Hm|].
    injection Hk as <-. injection Hm as <-.
    destruct Hties as (_ & _ & Hleast).
    + vm_compute. discriminate.
    + apply Hleast.
      * vm_compute. left. reflexivity.
      * vm_compute. reflexivity.
Defined.

(* ================================================================== *)
(** ** The right-side columns of a unified row *)

Lemma joins_In orders delivery routes costs feedback o d r c f :
  In (o, d, r, c, f) (joins orders delivery routes costs feedback) ->
  In o orders /\
  matched Delivery.Order_ID delivery (Order.Order_ID o) d /\
  matched Route.Order_ID routes (Order.Order_ID o) r /\
  matched Cost.Order_ID costs (Order.Order_ID o) c /\
  matched Feedback.Order_ID (feedback_agg feedback) (Order.Order_ID o) f.
Proof.
  unfold joins. intro H.
  apply merge_left_In in H. destruct H as [H Hf].
  apply merge_left_In in H. destruct H as [H Hc].
  apply merge_left_In in H. destruct H as [H Hr].
  apply merge_left_In in H. destruct H as [H Hd].
  repeat split; assumption.
Qed.

(** C4. For every unified record, [Total_Cost] is the sum of the seven cost
    components, a null component counting as 0; with no matching cost row
    it is 0. *)
Theorem total_cost_is_sum
    orders delivery routes vehicles warehouse feedback costs r :
  In r (merged (load_data orders delivery routes vehicles warehouse feedback costs)) ->
  feq (Merged.Total_Cost r)
      (fadd (fadd (fadd (fadd (fadd (fadd
         (nan_to_zero (Merged.Fuel_Cost r))
         (nan_to_zero (Merged.Labor_Cost r)))
         (nan_to_zero (Merged.Vehicle_Maintenance r)))
         (nan_to_zero (Merged.Insurance r)))
         (nan_to_zero (Merged.Packaging_Cost r)))
         (nan_to_zero (Merged.Technology_Platform_Fee r)))
         (nan_to_zero (Merged.Other_Overhead r))) /\
  ((forall c, In c costs -> Merged.Order_ID r <> Cost.Order_ID c) ->
   Merged.Total_Cost r = fin 0).
Proof.
  intro Hr. apply merged_row_metrics in Hr. destruct Hr as [x [Hx ->]].
  destruct x as [[[[o d] rt] c] f]. split.
  - cbn [metrics Merged.Total_Cost Merged.Fuel_Cost Merged.Labor_Cost
         Merged.Vehicle_Maintenance Merged.Insurance Merged.Packaging_Cost
         Merged.Technology_Platform_Fee Merged.Other_Overhead].
    unfold sum, cost_columns. cbn [map fold_left].
    repeat apply fadd_feq_l. apply fadd_0_l.
  - intro Hnone. apply joins_In in Hx. destruct Hx as (_ & _ & _ & Hc & _).
    destruct c as [c|].
    + exfalso. destruct Hc as [Hin Hk]. exact (Hnone c Hin Hk).
    + reflexivity.
Qed.

Lemma total_cost_is_sum_witness :
  feq (Merged.Total_Cost
         (metrics (Sample.order_1, Some Sample.delivery_1, Some Sample.route_1,
                   Some Sample.cost_1, None)))
      (fin 150) /\
  Merged.Total_Cost (metrics (Sample.order_2, None, None, None, None)) = fin 0.
Proof.
  split.
  - destruct (total_cost_is_sum
                [Sample.order_1] [Sample.delivery_1] [Sample.route_1] [] [] []
                [Sample.cost_1]
                (metrics (Sample.order_1, Some Sample.delivery_1,
                          Some Sample.route_1, Some Sample.cost_1, None)))
      as [H _].
    + vm_compute. left. reflexivity.
    + eapply feq_trans; [exact H|]. vm_compute. reflexivity.
  - destruct (total_cost_is_sum
                [Sample.order_2] [Sample.delivery_1] [Sample.route_1] [] [] []
                [Sample.cost_1]
                (metrics (Sample.order_2, None, None, None, None)))
      as [_ H].
    + vm_compute. left. reflexivity.
    + apply H. intros c [<-|[]]. vm_compute. discriminate.
Defined.

(* ================================================================== *)
(** ** Division by zero and nulls in the means *)

Lemma feqb_feq (x : float) (q : Q) : feqb x (fin q) = true <-> feq x (fin q).
Proof.
  destruct x; simpl; try (split; [discriminate | contradiction]).
  apply Qeq_bool_iff.
Qed.

(** Rows whose cell is null do not take part in the mean of a column. *)
Lemma mean_skips_null_rows {A : Type} (f : A -> float) (keep : A -> bool)
    (rows : list A) :
  (forall r, In r rows -> keep r = false -> f r = nan) ->
  mean (map f rows) = mean (map f (filter keep rows)).
Proof.
  intro H. unfold mean.
  assert (E : dropna (map f rows) = dropna (map f (filter keep rows))).
  { induction rows as [|a rows IH]; [reflexivity|].
    cbn [map filter].
    assert (IH' : dropna (map f rows) = dropna (map f (filter keep rows))).
    { apply IH. intros r Hr. apply H. right. exact Hr. }
    destruct (keep a) eqn:Ek.
    - cbn [map]. unfold dropna in *. cbn [filter]. rewrite IH'. reflexivity.
    - unfold dropna in *. cbn [filter].
      rewrite (H a (or_introl eq_refl) Ek). cbn [isnan negb]. exact IH'. }
  rewrite E. reflexivity.
Qed.

Lemma Cost_per_KM_metrics (x : joined) :
  Merged.Cost_per_KM (metrics x) =
  fdiv (Merged.Total_Cost (metrics x)) (replace_0_nan (Merged.Distance_KM (metrics x))).
Proof. destruct x as [[[[o d] r] c] f]. reflexivity. Qed.

Lemma Revenue_to_Cost_Ratio_metrics (x : joined) :
  Merged.Revenue_to_Cost_Ratio (metrics x) =
  fdiv (Merged.Order_Value_INR (metrics x))
       (replace_0_nan (Merged.Total_Cost (metrics x))).
Proof. destruct x as [[[[o d] r] c] f]. reflexivity. Qed.

Lemma zero_distance_null_cost_per_km (x : joined) :
  feq (Merged.Distance_KM (metrics x)) (fin 0) ->
  Merged.Cost_per_KM (metrics x) = nan.
Proof.
  intro H. rewrite Cost_per_KM_metrics, (replace_0_nan_zero _ H).
  apply fdiv_nan_r.
Qed.

Lemma zero_cost_null_ratio (x : joined) :
  feq (Merged.Total_Cost (metrics x)) (fin 0) ->
  Merged.Revenue_to_Cost_Ratio (metrics x) = nan.
Proof.
  intro H. rewrite Revenue_to_Cost_Ratio_metrics, (replace_0_nan_zero _ H).
  apply fdiv_nan_r.
Qed.

(** C5. A unified record of distance exactly 0 has a null [Cost_per_KM],
    and one of total cost exactly 0 a null [Revenue_to_Cost_Ratio]: neither
    an infinity nor an error.  The mean of either column is the mean over
    the other records: these nulls take no part in it. *)
Theorem zero_denominator_is_null
    orders delivery routes vehicles warehouse feedback costs :
  let unified :=
    merged (load_data orders delivery routes vehicles warehouse feedback costs) in
  (forall r, In r unified ->
     (feq (Merged.Distance_KM r) (fin 0) -> Merged.Cost_per_KM r = nan) /\
     (feq (Merged.Total_Cost r) (fin 0) -> Merged.Revenue_to_Cost_Ratio r = nan)) /\
  mean (map Merged.Cost_per_KM unified) =
    mean (map Merged.Cost_per_KM
            (filter (fun r => negb (feqb (Merged.Distance_KM r) (fin 0))) unified)) /\
  mean (map Merged.Revenue_to_Cost_Ratio unified) =
    mean (map Merged.Revenue_to_Cost_Ratio
            (filter (fun r => negb (feqb (Merged.Total_Cost r) (fin 0))) unified)).
Proof.
  intro unified.
  assert (Hrows : forall r, In r unified ->
     (feq (Merged.Distance_KM r) (fin 0) -> Merged.Cost_per_KM r = nan) /\
     (feq (Merged.Total_Cost r) (fin 0) -> Merged.Revenue_to_Cost_Ratio r = nan)).
  { intros r Hr. apply merged_row_metrics in Hr. destruct Hr as [x [_ ->]].
    split; [apply zero_distance_null_cost_per_km | apply zero_cost_null_ratio]. }
  split; [exact Hrows|]. split.
  - apply mean_skips_null_rows. intros r Hr Hk.
    apply negb_false_iff, feqb_feq in Hk. apply (Hrows r Hr). exact Hk.
  - apply mean_skips_null_rows. intros r Hr Hk.
    apply negb_false_iff, feqb_feq in Hk. apply (Hrows r Hr). exact Hk.
Qed.

Lemma zero_denominator_is_null_witness :
  Merged.Cost_per_KM
    (metrics (Sample.order_1, Some Sample.delivery_1, Some Sample.route_1,
              Some Sample.cost_1, None)) = nan /\
  Merged.Revenue_to_Cost_Ratio (metrics (Sample.order_2, None, None, None, None)) =
  nan.
Proof.
  destruct (zero_denominator_is_null
              [Sample.order_1; Sample.order_2] [Sample.delivery_1]
              [Sample.route_1] [] [] [] [Sample.cost_1]) as [H _].
  split.
  - apply H.
    + vm_compute. left. reflexivity.
    + vm_compute. reflexivity.
  - apply H.
    + vm_compute. right. left. reflexivity.
    + vm_compute. reflexivity.
Defined.

(* ================================================================== *)
(** ** The on-time rate *)

Lemma Qeq_bool_compat_l (p q a : Q) : p == q -> Qeq_bool p a = Qeq_bool q a.
Proof.
  intro H. destruct (Qeq_bool q a) eqn:E.
  - apply Qeq_bool_iff. apply Qeq_bool_iff in E. rewrite H. exact E.
  - destruct (Qeq_bool p a) eqn:F; [|reflexivity].
    apply Qeq_bool_iff in F. rewrite H in F. apply Qeq_bool_iff in F. congruence.
Qed.

Lemma fdiv_feq_l (a b c : float) : feq a b -> feq (fdiv a c) (fdiv b c).
Proof.
  destruct a as [| |p|], b as [| |q|]; simpl; try contradiction; intro H;
    try exact I; try apply feq_refl.
  destruct c as [| |d|]; simpl; auto; try reflexivity.
  rewrite (Qeq_bool_compat_l p q 0 H), (Qlt_bool_compat_r 0 p q H).
  destruct (Qeq_bool d 0); [apply feq_refl|].
  simpl. rewrite H. reflexivity.
Qed.

Lemma fmul_feq_l (a b c : float) : feq a b -> feq (fmul a c) (fmul b c).
Proof.
  destruct a as [| |p|], b as [| |q|]; simpl; try contradiction; intro H;
    try exact I; try apply feq_refl.
  destruct c as [| |d|]; simpl; auto;
    try (rewrite (Qeq_bool_compat_l p q 0 H), (Qlt_bool_compat_r 0 p q H);
         apply feq_refl).
  rewrite H. reflexivity.
Qed.

Lemma dropna_of_bool (bs : list bool) : dropna (map of_bool bs) = map of_bool bs.
Proof.
  induction bs as [|[|] bs IH]; simpl; congruence.
Qed.

(** The sum of a boolean column counts its True cells. *)
Lemma sum_of_bool (bs : list bool) (a : Q) :
  exists q,
    fold_left fadd (map nan_to_zero (map of_bool bs)) (fin a) = fin q /\
    q == a + inject_Z (Z.of_nat (List.length (filter (fun b => b) bs))).
Proof.
  revert a. induction bs as [|b bs IH]; intro a.
  - exists a. split; [reflexivity|]. simpl. unfold inject_Z. ring.
  - destruct b; cbn [map fold_left filter of_bool nan_to_zero fadd].
    + destruct (IH (a + 1)) as [q [E Hq]]. exists q. split; [exact E|].
      rewrite Hq. cbn [List.length]. rewrite Nat2Z.inj_succ.
      unfold Z.succ. rewrite inject_Z_plus. ring.
    + destruct (IH (a + 0)) as [q [E Hq]]. exists q. split; [exact E|].
      rewrite Hq. ring.
Qed.

(** The mean of a boolean column is the number of its True cells over the
    number of all its cells. *)
Lemma mean_bool_ratio (bs : list bool) :
  feq (mean_bool bs)
      (fdiv (of_nat (List.length (filter (fun b => b) bs)))
            (of_nat (List.length bs))).
Proof.
  unfold mean_bool, mean. rewrite dropna_of_bool.
  destruct bs as [|b bs]; [simpl; exact I|].
  remember (b :: bs) as l eqn:El.
  assert (Hm : map of_bool l <> []) by (rewrite El; discriminate).
  destruct (map of_bool l) as [|y ys] eqn:E; [congruence|].
  rewrite <- E. rewrite length_map. apply fdiv_feq_l.
  unfold sum. destruct (sum_of_bool l 0) as [q [-> Hq]].
  unfold of_nat. simpl. rewrite Hq. ring.
Qed.

Lemma filter_map_bool {A : Type} (f : A -> bool) (l : list A) :
  List.length (filter (fun b => b) (map f l)) = List.length (filter f l).
Proof.
  induction l as [|a l IH]; simpl; [reflexivity|].
  destruct (f a); simpl; congruence.
Qed.

Lemma Delay_metrics (x : joined) :
  Merged.Delivery_Delay_Days (metrics x) =
  fsub (Merged.Actual_Delivery_Days (metrics x))
       (Merged.Promised_Delivery_Days (metrics x)) /\
  Merged.On_Time (metrics x) = fle (Merged.Delivery_Delay_Days (metrics x)) (fin 0).
Proof. destruct x as [[[[o d] r] c] f]. split; reflexivity. Qed.

(** C10. A unified record without delivery row has a null
    [Actual_Delivery_Days], hence a null [Delivery_Delay_Days] and an
    [On_Time] of False, not null.  The on-time rate is the number of on-time
    records over the number of all records, times 100: such a record counts
    in it, as not on time. *)
Theorem missing_delivery_is_not_on_time
    orders delivery routes vehicles warehouse feedback costs :
  let data := load_data orders delivery routes vehicles warehouse feedback costs in
  (forall r, In r (merged data) ->
     ((forall d, In d delivery -> Merged.Order_ID r <> Delivery.Order_ID d) ->
      Merged.Actual_Delivery_Days r = nan) /\
     (Merged.Actual_Delivery_Days r = nan ->
      Merged.Delivery_Delay_Days r = nan /\ Merged.On_Time r = false)) /\
  feq (on_time_rate (create_kpi_metrics data))
      (fmul (fdiv (of_nat (List.length (filter Merged.On_Time (merged data))))
                  (of_nat (List.length (merged data))))
            (fin 100)).
Proof.
  intro data. split.
  - intros r Hr. apply merged_row_metrics in Hr. destruct Hr as [x [Hx ->]].
    split.
    + intro Hnone. destruct x as [[[[o d] rt] c] f].
      apply joins_In in Hx. destruct Hx as (_ & Hd & _).
      destruct d as [d|]; [|reflexivity].
      exfalso. destruct Hd as [Hin Hk]. exact (Hnone d Hin Hk).
    + intro Hnan. destruct (Delay_metrics x) as [Hdelay Hon].
      rewrite Hon, Hdelay, Hnan. split; reflexivity.
  - unfold create_kpi_metrics. cbn [on_time_rate].
    apply fmul_feq_l.
    rewrite <- (filter_map_bool Merged.On_Time (merged data)).
    rewrite <- (length_map Merged.On_Time (merged data)).
    apply mean_bool_ratio.
Qed.

Lemma missing_delivery_is_not_on_time_witness :
  Merged.Delivery_Delay_Days (metrics (Sample.order_2, None, None, None, None)) = nan /\
  Merged.On_Time (metrics (Sample.order_2, None, None, None, None)) = false.
Proof.
  destruct (missing_delivery_is_not_on_time
              [Sample.order_1; Sample.order_2] [Sample.delivery_1]
              [] [] [] [] []) as [H _].
  destruct (H (metrics (Sample.order_2, None, None, None, None))) as [Hnone Hnan].
  - vm_compute. right. left. reflexivity.
  - apply Hnan. apply Hnone. intros d [<-|[]]. vm_compute. discriminate.
Defined.

(* ================================================================== *)
(** ** More on [load_data]: where the columns of a unified row come from *)

Lemma metrics_columns (o : Order.row) d r c f :
  let m := metrics (o, d, r, c, f) in
  Merged.Order_ID m = Order.Order_ID o /\
  Merged.Order_Value_INR m = Order.Order_Value_INR o /\
  Merged.Promised_Delivery_Days m = Order.Promised_Delivery_Days o /\
  Merged.Actual_Delivery_Days m = col Delivery.Actual_Delivery_Days d /\
  Merged.Distance_KM m = col Route.Distance_KM r /\
  Merged.Route m = col_obj Route.Route r /\
  Merged.Carrier m = col_obj Route.Carrier r /\
  Merged.Rating m = col Feedback.Rating f /\
  Merged.Issue_Category m = col_obj Feedback.Issue_Category f.
Proof. repeat split. Qed.

(** X1. Every unified record carries the columns of an order row.  Its delivery,
    route and cost columns are those of a row of that table with the same
    [Order_ID], and are null when the table has no such row: a join never
    attaches the row of another order. *)
Theorem unified_row_sources
    orders delivery routes vehicles warehouse feedback costs r :
  In r (merged (load_data orders delivery routes vehicles warehouse feedback costs)) ->
  (exists o, In o orders /\
     Merged.Order_ID r = Order.Order_ID o /\
     Merged.Priority r = Order.Priority o /\
     Merged.Product_Category r = Order.Product_Category o /\
     Merged.Order_Value_INR r = Order.Order_Value_INR o /\
     Merged.Promised_Delivery_Days r = Order.Promised_Delivery_Days o) /\
  ((exists d, In d delivery /\ Delivery.Order_ID d = Merged.Order_ID r /\
      Merged.Actual_Delivery_Days r = Delivery.Actual_Delivery_Days d) \/
   ((forall d, In d delivery -> Delivery.Order_ID d <> Merged.Order_ID r) /\
    Merged.Actual_Delivery_Days r = nan)) /\
  ((exists t, In t routes /\ Route.Order_ID t = Merged.Order_ID r /\
      Merged.Route r = Route.Route t /\
      Merged.Origin r = Route.Origin t /\
      Merged.Destination r = Route.Destination t /\
      Merged.Distance_KM r = Route.Distance_KM t /\
      Merged.Carrier r = Route.Carrier t) \/
   ((forall t, In t routes -> Route.Order_ID t <> Merged.Order_ID r) /\
    Merged.Route r = None /\ Merged.Origin r = None /\
    Merged.Destination r = None /\ Merged.Distance_KM r = nan /\
    Merged.Carrier r = None)) /\
  ((exists c, In c costs /\ Cost.Order_ID c = Merged.Order_ID r /\
      Merged.Fuel_Cost r = Cost.Fuel_Cost c /\
      Merged.Labor_Cost r = Cost.Labor_Cost c /\
      Merged.Vehicle_Maintenance r = Cost.Vehicle_Maintenance c /\
      Merged.Insurance r = Cost.Insurance c /\
      Merged.Packaging_Cost r = Cost.Packaging_Cost c /\
      Merged.Technology_Platform_Fee r = Cost.Technology_Platform_Fee c /\
      Merged.Other_Overhead r = Cost.Other_Overhead c) \/
   ((forall c, In c costs -> Cost.Order_ID c <> Merged.Order_ID r) /\
    Merged.Fuel_Cost r = nan /\ Merged.Labor_Cost r = nan /\
    Merged.Vehicle_Maintenance r = nan /\ Merged.Insurance r = nan /\
    Merged.Packaging_Cost r = nan /\ Merged.Technology_Platform_Fee r = nan /\
    Merged.Other_Overhead r = nan)).
Proof.
  intro Hr. apply merged_row_metrics in Hr. destruct Hr as [x [Hx ->]].
  destruct x as [[[[o d] t] c] f].
  apply joins_In in Hx. destruct Hx as (Ho & Hd & Ht & Hc & _).
  split; [|split; [|split]].
  - exists o. repeat split. exact Ho.
  - destruct d as [d|]; [left | right].
    + destruct Hd as [Hin Hk]. exists d. repeat split; [exact Hin|].
      symmetry. exact Hk.
    + split; [|reflexivity]. intros d Hin E. exact (Hd d Hin (eq_sym E)).
  - destruct t as [t|]; [left | right].
    + destruct Ht as [Hin Hk]. exists t. repeat split; [exact Hin|].
      symmetry. exact Hk.
    + split; [|repeat split]. intros t Hin E. exact (Ht t Hin (eq_sym E)).
  - destruct c as [c|]; [left | right].
    + destruct Hc as [Hin Hk]. exists c. repeat split; [exact Hin|].
      symmetry. exact Hk.
    + split; [|repeat split]. intros c Hin E. exact (Hc c Hin (eq_sym E)).
Qed.

Lemma unified_row_sources_witness :
  exists d, In d [Sample.delivery_1] /\
    Merged.Actual_Delivery_Days
      (metrics (Sample.order_1, Some Sample.delivery_1, None, None, None)) =
    Delivery.Actual_Delivery_Days d.
Proof.
  destruct (unified_row_sources [Sample.order_1] [Sample.delivery_1] [] [] [] [] []
              (metrics (Sample.order_1, Some Sample.delivery_1, None, None, None)))
    as (_ & [(d & Hin & _ & E) | (Hnone & _)] & _).
  - vm_compute. left. reflexivity.
  - exists d. split; [exact Hin | exact E].
  - exfalso. apply (Hnone Sample.delivery_1); [left; reflexivity | reflexivity].
Defined.

Section MergeCount.
Context {L R : Type} (kl : L -> cell) (kr : R -> cell).

Lemma merge_left_length_ge (left : list L) (right : list R) :
  (List.length left <= List.length (merge_left kl kr left right))%nat.
Proof.
  unfold merge_left. induction left as [|l left IH]; [apply Nat.le_refl|].
  cbn [flat_map]. rewrite length_app.
  set (n := List.length (flat_map _ left)) in *.
  destruct (filter (fun r => cell_eqb (kl l) (kr r)) right) as [|m ms];
    simpl; lia.
Qed.
Lemma merge_left_length_unique (left : list L) (right : list R) :
  NoDup (map kr right) ->
  List.length (merge_left kl kr left right) = List.length left.
Proof.
  intro H. rewrite <- (merge_left_unique_right kl kr left right H) at 2.
  symmetry. apply length_map.
Qed.
End MergeCount.

(** X2. The unified set has at least one row for each row of the orders table
    (a left join drops none), none for an empty orders table, and exactly as
    many rows as the orders table when no [Order_ID] occurs twice in the
    delivery, routes and costs tables. *)
Theorem unified_row_count
    orders delivery routes vehicles warehouse feedback costs :
  let unified :=
    merged (load_data orders delivery routes vehicles warehouse feedback costs) in
  (List.length orders <= List.length unified)%nat /\
  (orders = [] -> unified = []) /\
  (NoDup (map Delivery.Order_ID delivery) ->
   NoDup (map Route.Order_ID routes) ->
   NoDup (map Cost.Order_ID costs) ->
   List.length unified = List.length orders).
Proof.
  intro unified. unfold unified. cbn [merged load_data].
  rewrite length_map. unfold joins. split; [|split].
  - eapply Nat.le_trans; [|apply merge_left_length_ge].
    eapply Nat.le_trans; [|apply merge_left_length_ge].
    eapply Nat.le_trans; [|apply merge_left_length_ge].
    apply merge_left_length_ge.
  - intros ->. reflexivity.
  - intros Hd Hr Hc.
    cbv zeta.
    etransitivity;
      [apply merge_left_length_unique; apply NoDup_feedback_agg|].
    etransitivity; [apply merge_left_length_unique; exact Hc|].
    etransitivity; [apply merge_left_length_unique; exact Hr|].
    apply merge_left_length_unique. exact Hd.
Qed.

Lemma unified_row_count_witness :
  List.length
    (merged (load_data [Sample.order_1; Sample.order_2] [Sample.delivery_1]
               [Sample.route_1] [] [] [Sample.feedback_late] [Sample.cost_1])) =
  2%nat.
Proof.
  destruct (unified_row_count [Sample.order_1; Sample.order_2]
              [Sample.delivery_1] [Sample.route_1] [] []
              [Sample.feedback_late] [Sample.cost_1]) as (_ & _ & H).
  apply H; simpl; (constructor; [simpl; tauto | constructor]).
Defined.

(* ================================================================== *)
(** ** More on [load_data]: the buckets as intervals *)

Lemma Qle_bool_negb_Qlt_bool (p q : Q) : Qle_bool p q = negb (Qlt_bool q p).
Proof. unfold Qlt_bool. rewrite negb_involutive. reflexivity. Qed.

(** Below a bin edge or on it: for a cell above some other edge, not being
    above [b] is being at most [b]. *)
Lemma not_above_is_at_most (a b : Q) (x : float) :
  flt (fin a) x = true -> (flt (fin b) x = false <-> fle x (fin b) = true).
Proof.
  destruct x as [| |q|]; simpl; try discriminate; intros _.
  - rewrite Qle_bool_negb_Qlt_bool, negb_true_iff. tauto.
  - split; discriminate.
Qed.

Lemma cut_delay_all (d : float) :
  cut delay_bins delay_labels d =
  if flt neg_inf d then
    Some (if flt (fin 0) d then
            if flt (fin 2) d then
              if flt (fin 5) d then "Major Delay (>5 days)"
              else "Moderate Delay (2-5 days)"
            else "Minor Delay (<2 days)"
          else "On Time")
  else None.
Proof.
  destruct d as [| |q|]; try reflexivity. apply cut_delay_fin.
Qed.

Lemma cut_stock_all (d : float) :
  cut stock_bins stock_labels d =
  if flt (fin 0) d then
    Some (if flt (fin (5 # 10)) d then
            if flt (fin (8 # 10)) d then
              if flt (fin (12 # 10)) d then "Excess" else "Normal"
            else "Low"
          else "Critical")
  else None.
Proof.
  destruct d as [| |q|]; try reflexivity. apply cut_stock_fin.
Qed.

Lemma flt_fin_mono (a b : Q) (x : float) :
  a <= b -> flt (fin b) x = true -> flt (fin a) x = true.
Proof.
  intro Hab. destruct x as [| |q|]; simpl; auto.
  rewrite !Qlt_bool_iff. intro H. eapply Qle_lt_trans; eassumption.
Qed.

(** X3. [Delay_Severity] by intervals: "On Time" is a delay of at most 0 (and
    above minus infinity), "Minor Delay" one in (0, 2], "Moderate Delay" one
    in (2, 5], "Major Delay" one above 5, plus infinity included; the label
    is null exactly for a null delay and for minus infinity. *)
Theorem delay_severity_intervals
    orders delivery routes vehicles warehouse feedback costs r :
  In r (merged (load_data orders delivery routes vehicles warehouse feedback costs)) ->
  let d := Merged.Delivery_Delay_Days r in
  (Merged.Delay_Severity r = Some "On Time" <->
   flt neg_inf d = true /\ fle d (fin 0) = true) /\
  (Merged.Delay_Severity r = Some "Minor Delay (<2 days)" <->
   flt (fin 0) d = true /\ fle d (fin 2) = true) /\
  (Merged.Delay_Severity r = Some "Moderate Delay (2-5 days)" <->
   flt (fin 2) d = true /\ fle d (fin 5) = true) /\
  (Merged.Delay_Severity r = Some "Major Delay (>5 days)" <->
   flt (fin 5) d = true) /\
  (Merged.Delay_Severity r = None <-> d = nan \/ d = neg_inf).
Proof.
  intros Hr d. apply merged_row_metrics in Hr. destruct Hr as [x [_ ->]].
  rewrite Delay_Severity_metrics. fold d. rewrite cut_delay_all.
  destruct d as [| |q|]; cbn [flt fle].
  - repeat split; try discriminate; try tauto; intros [H1 H2]; discriminate.
  - repeat split; try discriminate; try tauto; intros [H1 H2]; discriminate.
  - rewrite !Qle_bool_negb_Qlt_bool.
    destruct (Qlt_bool 0 q) eqn:E0; destruct (Qlt_bool 2 q) eqn:E2;
      destruct (Qlt_bool 5 q) eqn:E5; cbn [negb];
      repeat split; try discriminate; try tauto;
      try (intros [H1 H2]; discriminate);
      try (intros [H|H]; discriminate);
      exfalso.
    + apply Qlt_bool_iff in E5. apply Qlt_bool_false_iff in E2.
      apply (Qlt_irrefl q). eapply Qle_lt_trans; [exact E2|].
      eapply Qlt_trans; [|exact E5]. reflexivity.
    + apply Qlt_bool_iff in E2. apply Qlt_bool_false_iff in E0.
      apply (Qlt_irrefl q). eapply Qle_lt_trans; [exact E0|].
      eapply Qlt_trans; [|exact E2]. reflexivity.
    + apply Qlt_bool_iff in E2. apply Qlt_bool_false_iff in E0.
      apply (Qlt_irrefl q). eapply Qle_lt_trans; [exact E0|].
      eapply Qlt_trans; [|exact E2]. reflexivity.
    + apply Qlt_bool_iff in E5. apply Qlt_bool_false_iff in E0.
      apply (Qlt_irrefl q). eapply Qle_lt_trans; [exact E0|].
      eapply Qlt_trans; [|exact E5]. reflexivity.
  - repeat split; try discriminate; try tauto;
      try (intros [H1 H2]; discriminate); intros [H|H]; discriminate.
Qed.

Lemma delay_severity_intervals_witness :
  flt (fin 2)
    (Merged.Delivery_Delay_Days
       (metrics (Sample.order_1, Some Sample.delivery_1, None, None, None))) = true.
Proof.
  destruct (delay_severity_intervals
              [Sample.order_1] [Sample.delivery_1] [] [] [] [] []
              (metrics (Sample.order_1, Some Sample.delivery_1, None, None, None)))
    as (_ & _ & [H _] & _).
  - vm_compute. left. reflexivity.
  - apply H. vm_compute. reflexivity.
Defined.

(** X4. [Stock_Status] by intervals of the stock ratio: "Critical" in (0, 0.5],
    "Low" in (0.5, 0.8], "Normal" in (0.8, 1.2], "Excess" above 1.2, plus
    infinity included; the status is null exactly when the ratio is not
    above 0 (zero, negative or null). *)
Theorem stock_status_intervals
    orders delivery routes vehicles ws feedback costs w :
  In w (warehouse (load_data orders delivery routes vehicles ws feedback costs)) ->
  let ratio := Warehouse.Stock_Ratio w in
  (Warehouse.Stock_Status w = Some "Critical" <->
   flt (fin 0) ratio = true /\ fle ratio (fin (5 # 10)) = true) /\
  (Warehouse.Stock_Status w = Some "Low" <->
   flt (fin (5 # 10)) ratio = true /\ fle ratio (fin (8 # 10)) = true) /\
  (Warehouse.Stock_Status w = Some "Normal" <->
   flt (fin (8 # 10)) ratio = true /\ fle ratio (fin (12 # 10)) = true) /\
  (Warehouse.Stock_Status w = Some "Excess" <->
   flt (fin (12 # 10)) ratio = true) /\
  (Warehouse.Stock_Status w = None <-> flt (fin 0) ratio = false).
Proof.
  intros Hw ratio. apply warehouse_row_stock in Hw. destruct Hw as [w0 [_ ->]].
  rewrite Stock_Status_stock. fold ratio. rewrite cut_stock_all.
  assert (M1 : flt (fin (5 # 10)) ratio = true -> flt (fin 0) ratio = true).
  { apply flt_fin_mono. discriminate. }
  assert (M2 : flt (fin (8 # 10)) ratio = true -> flt (fin (5 # 10)) ratio = true).
  { apply flt_fin_mono. discriminate. }
  assert (M3 : flt (fin (12 # 10)) ratio = true -> flt (fin (8 # 10)) ratio = true).
  { apply flt_fin_mono. discriminate. }
  pose proof (not_above_is_at_most 0 (5 # 10) ratio) as A1.
  pose proof (not_above_is_at_most (5 # 10) (8 # 10) ratio) as A2.
  pose proof (not_above_is_at_most (8 # 10) (12 # 10) ratio) as A3.
  destruct (flt (fin 0) ratio) eqn:E0;
    destruct (flt (fin (5 # 10)) ratio) eqn:E1;
    destruct (flt (fin (8 # 10)) ratio) eqn:E2;
    destruct (flt (fin (12 # 10)) ratio) eqn:E3;
    try (specialize (M1 eq_refl); discriminate);
    try (specialize (M2 eq_refl); discriminate);
    try (specialize (M3 eq_refl); discriminate);
    repeat split; try discriminate; try tauto;
    try (intros [H1 H2]; try discriminate;
         first [ apply (A1 eq_refl) in H2 | apply (A2 eq_refl) in H2
               | apply (A3 eq_refl) in H2 ]; discriminate);
    intros _;
    first [ apply (A1 eq_refl) | apply (A2 eq_refl) | apply (A3 eq_refl) ];
    reflexivity.
Qed.

Lemma stock_status_intervals_witness :
  flt (fin (5 # 10)) (Warehouse.Stock_Ratio (stock (Sample.stock_of 4 5))) = true.
Proof.
  destruct (stock_status_intervals [] [] [] [] [Sample.stock_of 4 5] [] []
              (stock (Sample.stock_of 4 5))) as (_ & [H _] & _).
  - vm_compute. left. reflexivity.
  - apply H. vm_compute. reflexivity.
Defined.

(** X5. [On_Time] and [Delay_Severity] are computed separately and agree: for
    every unified record whose delay is not minus infinity, [On_Time] is
    True exactly when the severity is "On Time".  A record with a null delay
    is neither. *)
Theorem on_time_agrees_with_severity
    orders delivery routes vehicles warehouse feedback costs r :
  In r (merged (load_data orders delivery routes vehicles warehouse feedback costs)) ->
  Merged.Delivery_Delay_Days r <> neg_inf ->
  (Merged.On_Time r = true <-> Merged.Delay_Severity r = Some "On Time") /\
  (Merged.Delivery_Delay_Days r = nan ->
   Merged.On_Time r = false /\ Merged.Delay_Severity r = None).
Proof.
  intros Hr. apply merged_row_metrics in Hr. destruct Hr as [x [_ ->]].
  rewrite Delay_Severity_metrics. destruct (Delay_metrics x) as [_ ->].
  generalize (Merged.Delivery_Delay_Days (metrics x)). intros d Hd.
  rewrite cut_delay_all.
  destruct d as [| |q|]; try congruence; cbn [flt fle].
  - split; [split; discriminate | intros _; split; reflexivity].
  - split; [|discriminate].
    rewrite Qle_bool_negb_Qlt_bool.
    destruct (Qlt_bool 0 q); cbn [negb]; [|tauto].
    split; [discriminate|].
    destruct (Qlt_bool 2 q); [destruct (Qlt_bool 5 q)|]; discriminate.
  - split; [split; discriminate | discriminate].
Qed.

Lemma on_time_agrees_with_severity_witness :
  Merged.On_Time
    (metrics (Sample.order_2, Some (Delivery.mk (Some "O2") (fin 4)),
              None, None, None)) =
  false.
Proof.
  destruct (on_time_agrees_with_severity
              [Sample.order_2] [Delivery.mk (Some "O2") (fin 4)] [] [] [] [] []
              (metrics (Sample.order_2, Some (Delivery.mk (Some "O2") (fin 4)),
                        None, None, None)))
    as [[H _] _].
  - vm_compute. left. reflexivity.
  - vm_compute. discriminate.
  - destruct (Merged.On_Time
                (metrics (Sample.order_2, Some (Delivery.mk (Some "O2") (fin 4)),
                          None, None, None))) eqn:E; [|reflexivity].
    specialize (H eq_refl). vm_compute in H. discriminate.
Defined.

(* ================================================================== *)
(** ** More on [load_data]: the feedback columns of a unified row *)

Lemma feedback_agg_row (feedback : list Feedback.row) (row : Feedback.row) (k : string) :
  In row (feedback_agg feedback) -> Feedback.Order_ID row = Some k ->
  row = Feedback.mk (Some k)
          (mean (map Feedback.Rating (get_group Feedback.Order_ID feedback k)))
          (Some (modal_issue
                   (map Feedback.Issue_Category
                      (get_group Feedback.Order_ID feedback k)))) /\
  get_group Feedback.Order_ID feedback k <> [].
Proof.
  unfold feedback_agg, groupby. rewrite map_map. intros Hrow Hk.
  apply in_map_iff in Hrow. destruct Hrow as [k' [<- Hin]].
  cbn [fst snd Feedback.Order_ID] in *. injection Hk as ->.
  split; [reflexivity|].
  apply In_group_keys, in_map_iff in Hin. destruct Hin as [fr [Hkey Hfr]].
  intro Hnil.
  assert (H : In fr (get_group Feedback.Order_ID feedback k)).
  { unfold get_group. apply filter_In. split; [exact Hfr|].
    rewrite Hkey. simpl. apply String.eqb_refl. }
  rewrite Hnil in H. exact H.
Qed.

Lemma feedback_agg_has_row (feedback : list Feedback.row) (k : string) :
  get_group Feedback.Order_ID feedback k <> [] ->
  exists row, In row (feedback_agg feedback) /\ Feedback.Order_ID row = Some k.
Proof.
  intro Hne.
  destruct (get_group Feedback.Order_ID feedback k) as [|fr g] eqn:E; [congruence|].
  assert (Hfr : In fr (get_group Feedback.Order_ID feedback k))
    by (rewrite E; left; reflexivity).
  unfold get_group in Hfr. apply filter_In in Hfr. destruct Hfr as [Hin Hkey].
  assert (Hk : In (Some k) (map Feedback.Order_ID (feedback_agg feedback))).
  { rewrite feedback_agg_keys. apply in_map. apply In_group_keys.
    apply in_map_iff. exists fr. split; [|exact Hin].
    destruct (Feedback.Order_ID fr) as [s|]; simpl in Hkey; [|discriminate].
    apply String.eqb_eq in Hkey. congruence. }
  apply in_map_iff in Hk. destruct Hk as [row [Hrow Hin']].
  exists row. split; assumption.
Qed.

(** X6. The [Rating] of a unified record is the mean, nulls ignored, of the
    ratings of all feedback rows of its [Order_ID] (null when there is
    none).  Its [Issue_Category] is null when the order has no feedback row,
    and otherwise the aggregated category, which is never null (it is the
    text "None" when no feedback row has a category).  A record with a null
    [Order_ID] gets no feedback. *)
Theorem unified_feedback_columns
    orders delivery routes vehicles warehouse feedback costs r :
  In r (merged (load_data orders delivery routes vehicles warehouse feedback costs)) ->
  match Merged.Order_ID r with
  | Some k =>
      let group := get_group Feedback.Order_ID feedback k in
      Merged.Rating r = mean (map Feedback.Rating group) /\
      Merged.Issue_Category r =
        if empty group then None
        else Some (modal_issue (map Feedback.Issue_Category group))
  | None => Merged.Rating r = nan /\ Merged.Issue_Category r = None
  end.
Proof.
  intro Hr. apply merged_row_metrics in Hr. destruct Hr as [x [Hx ->]].
  destruct x as [[[[o d] t] c] f].
  apply joins_In in Hx. destruct Hx as (_ & _ & _ & _ & Hf).
  destruct (metrics_columns o d t c f) as (-> & _ & _ & _ & _ & _ & _ & -> & ->).
  destruct (Order.Order_ID o) as [k|] eqn:Ek.
  - destruct f as [row|]; cbn [matched col col_obj] in *.
    + destruct Hf as [Hin Hkey].
      destruct (feedback_agg_row feedback row k Hin (eq_sym Hkey)) as [-> Hne].
      cbn [Feedback.Rating Feedback.Issue_Category].
      split; [reflexivity|].
      destruct (get_group Feedback.Order_ID feedback k); [congruence | reflexivity].
    + assert (Hnil : get_group Feedback.Order_ID feedback k = []).
      { destruct (get_group Feedback.Order_ID feedback k) as [|fr g] eqn:E;
          [reflexivity|]. exfalso.
        destruct (feedback_agg_has_row feedback k) as [row [Hin Hkey]];
          [rewrite E; discriminate|].
        exact (Hf row Hin (eq_sym Hkey)). }
      rewrite Hnil. split; reflexivity.
  - destruct f as [row|]; cbn [matched col col_obj] in *;
      [|split; reflexivity].
    exfalso. destruct Hf as [Hin Hkey].
    assert (Hk : In None (map Feedback.Order_ID (feedback_agg feedback))).
    { rewrite Hkey. apply in_map. exact Hin. }
    rewrite feedback_agg_keys in Hk. apply in_map_iff in Hk.
    destruct Hk as [s [Hs _]]. discriminate.
Qed.

Lemma unified_feedback_columns_witness :
  Merged.Rating
    (metrics (Sample.order_1, None, None, None,
              Some (Feedback.mk (Some "O1") (fin (9 # 2)) (Some "Damaged")))) =
  mean [fin 4; fin 5].
Proof.
  pose proof (unified_feedback_columns [Sample.order_1] [] [] [] []
                [Sample.feedback_late; Sample.feedback_damaged] []
                (metrics (Sample.order_1, None, None, None,
                          Some (Feedback.mk (Some "O1") (fin (9 # 2))
                                  (Some "Damaged"))))) as H.
  cbv zeta in H. apply H. vm_compute. left. reflexivity.
Defined.

(* ================================================================== *)
(** ** More on [load_data]: ratios of unmatched orders and of zero levels *)

(** X7. An order without cost row has a null [Revenue_to_Cost_Ratio] (its total
    cost is 0, which the division guards), and an order without route row a
    null [Cost_per_KM]: neither is infinite. *)
Theorem unmatched_order_null_ratios
    orders delivery routes vehicles warehouse feedback costs r :
  In r (merged (load_data orders delivery routes vehicles warehouse feedback costs)) ->
  ((forall c, In c costs -> Merged.Order_ID r <> Cost.Order_ID c) ->
   Merged.Revenue_to_Cost_Ratio r = nan) /\
  ((forall t, In t routes -> Merged.Order_ID r <> Route.Order_ID t) ->
   Merged.Distance_KM r = nan /\ Merged.Cost_per_KM r = nan).
Proof.
  intro Hr. apply merged_row_metrics in Hr. destruct Hr as [x [Hx ->]].
  destruct x as [[[[o d] t] c] f].
  apply joins_In in Hx. destruct Hx as (_ & _ & Ht & Hc & _).
  split; intro Hnone.
  - destruct c as [c|].
    + exfalso. destruct Hc as [Hin Hk]. exact (Hnone c Hin Hk).
    + apply zero_cost_null_ratio. simpl. reflexivity.
  - destruct t as [t|].
    + exfalso. destruct Ht as [Hin Hk]. exact (Hnone t Hin Hk).
    + split; [reflexivity|]. rewrite Cost_per_KM_metrics.
      cbn [metrics Merged.Distance_KM col replace_0_nan feqb].
      apply fdiv_nan_r.
Qed.

Lemma unmatched_order_null_ratios_witness :
  Merged.Revenue_to_Cost_Ratio (metrics (Sample.order_2, None, None, None, None)) =
    nan /\
  Merged.Cost_per_KM (metrics (Sample.order_2, None, None, None, None)) = nan.
Proof.
  destruct (unmatched_order_null_ratios [Sample.order_2] [] [Sample.route_1] [] [] []
              [Sample.cost_1]
              (metrics (Sample.order_2, None, None, None, None))) as [H1 H2].
  - vm_compute. left. reflexivity.
  - split.
    + apply H1. intros c [<-|[]]. vm_compute. discriminate.
    + apply H2. intros t [<-|[]]. vm_compute. discriminate.
Defined.

(** X8. [Stock_Ratio] divides by the reorder level without a guard.  With a
    reorder level of exactly 0, a positive stock gives an infinite ratio and
    the status "Excess", and a stock of 0 or a negative one a null or minus
    infinite ratio and no status. *)
Theorem zero_reorder_level_stock (w : Warehouse.row) (c r : Q) :
  Warehouse.Current_Stock_Units w = fin c ->
  Warehouse.Reorder_Level w = fin r -> r == 0 ->
  (0 < c -> Warehouse.Stock_Ratio (stock w) = inf /\
            Warehouse.Stock_Status (stock w) = Some "Excess") /\
  (c == 0 -> Warehouse.Stock_Ratio (stock w) = nan /\
             Warehouse.Stock_Status (stock w) = None) /\
  (c < 0 -> Warehouse.Stock_Ratio (stock w) = neg_inf /\
            Warehouse.Stock_Status (stock w) = None).
Proof.
  intros Hc Hr Hr0. rewrite Stock_Status_stock.
  unfold stock; cbn [Warehouse.Stock_Ratio]. rewrite Hc, Hr. unfold fdiv.
  apply Qeq_bool_iff in Hr0. rewrite Hr0.
  split; [|split]; intro H.
  - assert (E : Qeq_bool c 0 = false).
    { destruct (Qeq_bool c 0) eqn:E; [|reflexivity].
      apply Qeq_bool_iff in E. rewrite E in H. exfalso. exact (Qlt_irrefl 0 H). }
    apply Qlt_bool_iff in H. rewrite E, H. split; reflexivity.
  - apply Qeq_bool_iff in H. rewrite H. split; reflexivity.
  - assert (E : Qeq_bool c 0 = false).
    { destruct (Qeq_bool c 0) eqn:E; [|reflexivity].
      apply Qeq_bool_iff in E. rewrite E in H. exfalso. exact (Qlt_irrefl 0 H). }
    assert (F : Qlt_bool 0 c = false).
    { apply Qlt_bool_false_iff. apply Qlt_le_weak. exact H. }
    rewrite E, F. split; reflexivity.
Qed.

Lemma zero_reorder_level_stock_witness :
  Warehouse.Stock_Status (stock (Sample.stock_of 9 0)) = Some "Excess".
Proof.
  destruct (zero_reorder_level_stock (Sample.stock_of 9 0) 9 0) as [H _].
  - reflexivity.
  - reflexivity.
  - reflexivity.
  - apply H. reflexivity.
Defined.

(* ================================================================== *)
(** ** More on [show_alerts]: the four kinds of alert *)

Lemma filter_length_le {A : Type} (p q : A -> bool) (l : list A) :
  (forall x, p x = true -> q x = true) ->
  (List.length (filter p l) <= List.length (filter q l))%nat.
Proof.
  intro H. induction l as [|a l IH]; [apply Nat.le_refl|].
  simpl. destruct (p a) eqn:E.
  - rewrite (H a E). simpl. lia.
  - destruct (q a); simpl; lia.
Qed.

Lemma major_is_above_5 (x : joined) :
  cell_is (Merged.Delay_Severity (metrics x)) "Major Delay (>5 days)" =
  flt (fin 5) (Merged.Delivery_Delay_Days (metrics x)).
Proof.
  rewrite Delay_Severity_metrics, cut_delay_all.
  destruct (Merged.Delivery_Delay_Days (metrics x)) as [| |q|];
    try reflexivity.
  cbn [flt]. destruct (Qlt_bool 5 q) eqn:E5.
  - assert (E2 : Qlt_bool 2 q = true).
    { apply Qlt_bool_iff. apply Qlt_bool_iff in E5.
      eapply Qlt_trans; [|exact E5]. reflexivity. }
    assert (E0 : Qlt_bool 0 q = true).
    { apply Qlt_bool_iff. apply Qlt_bool_iff in E5.
      eapply Qlt_trans; [|exact E5]. reflexivity. }
    rewrite E0, E2. reflexivity.
  - destruct (Qlt_bool 0 q); [destruct (Qlt_bool 2 q)|]; reflexivity.
Qed.

(** X9. With a costs table that has a row, [show_alerts] returns, and its
    severe-delay alerts are those of the first two unified records, in input
    order, whose delay is above 5 days: at most two, and none for a record
    with a delay of 5 days or less or a null delay. *)
Theorem severe_delay_alerts_capped
    orders delivery routes vehicles warehouse feedback costs :
  costs <> [] ->
  let data := load_data orders delivery routes vehicles warehouse feedback costs in
  let late :=
    filter (fun r => flt (fin 5) (Merged.Delivery_Delay_Days r)) (merged data) in
  exists alerts,
    show_alerts data = Returns alerts /\
    filter is_severe_delay_alert alerts =
      map severe_delay_alert (firstn (Nat.min (List.length late) 2) late) /\
    List.length (filter is_severe_delay_alert alerts) =
      Nat.min (List.length late) 2.
Proof.
  intros Hcosts data late. exists (alert_sections data).
  split; [apply show_alerts_returns; exact Hcosts|].
  assert (E : filter is_severe_delay_alert (alert_sections data) =
              map severe_delay_alert (firstn 2 late)).
  { unfold alert_sections. rewrite !filter_app.
    rewrite (filter_map_none is_severe_delay_alert critical_stock_alert)
      by reflexivity.
    rewrite (filter_map_all is_severe_delay_alert severe_delay_alert)
      by reflexivity.
    rewrite (filter_map_none is_severe_delay_alert
               (fun rc => High_Cost_Route (fst rc) (snd rc))) by reflexivity.
    rewrite low_rating_section_kind by reflexivity.
    rewrite !app_nil_r. cbn [app]. unfold head. f_equal. f_equal.
    unfold late, data. cbn [merged load_data].
    apply filter_ext_in. intros r Hr. apply in_map_iff in Hr.
    destruct Hr as [x [<- _]]. apply major_is_above_5. }
  rewrite E. split.
  - rewrite firstn_min_length. reflexivity.
  - rewrite length_map, length_firstn. apply Nat.min_comm.
Qed.

Lemma severe_delay_alerts_capped_witness :
  exists alerts,
    show_alerts
      (load_data [Sample.order_1] [Delivery.mk (Some "O1") (fin 9)] [] [] [] []
         [Sample.cost_1]) = Returns alerts /\
    List.length (filter is_severe_delay_alert alerts) = 1%nat.
Proof.
  destruct (severe_delay_alerts_capped
              [Sample.order_1] [Delivery.mk (Some "O1") (fin 9)] [] [] [] []
              [Sample.cost_1]) as (alerts & E & _ & Hlen).
  - discriminate.
  - exists alerts. split; [exact E | exact Hlen].
Defined.

(** X10. With a costs table that has a row, [show_alerts] returns, with
    one low-rating alert when some unified record has a rating below 3,
    carrying the number of these records, and with none otherwise; a record
    with a null rating is never counted. *)
Theorem low_rating_alert_count (data : Data) :
  costs data <> [] ->
  let low := filter (fun r => flt (Merged.Rating r) (fin 3)) (merged data) in
  exists alerts,
    show_alerts data = Returns alerts /\
    filter is_low_rating_alert alerts =
      (if (List.length low =? 0)%nat then []
       else [Low_Rating_Alert (List.length low)]) /\
    (forall r, In r low -> Merged.Rating r <> nan) /\
    (List.length low <=
     List.length (filter (fun r => negb (isnan (Merged.Rating r))) (merged data)))%nat.
Proof.
  intros Hcosts low. exists (alert_sections data).
  split; [apply show_alerts_returns; exact Hcosts|]. split; [|split].
  - unfold alert_sections. rewrite !filter_app.
    rewrite (filter_map_none is_low_rating_alert critical_stock_alert)
      by reflexivity.
    rewrite (filter_map_none is_low_rating_alert severe_delay_alert)
      by reflexivity.
    rewrite (filter_map_none is_low_rating_alert
               (fun rc => High_Cost_Route (fst rc) (snd rc))) by reflexivity.
    rewrite app_nil_r. cbn [app].
    unfold low_rating_section. cbv zeta. fold low.
    destruct low; reflexivity.
  - intros r Hr. unfold low in Hr. apply filter_In in Hr.
    destruct Hr as [_ Hr]. intro E. rewrite E in Hr. discriminate.
  - unfold low. apply filter_length_le. intros r Hr.
    destruct (Merged.Rating r); [discriminate | reflexivity..].
Qed.

Lemma low_rating_alert_count_witness :
  exists alerts,
    show_alerts
      (load_data [Sample.order_1] [] [] [] []
         [Feedback.mk (Some "O1") (fin 2) (Some "Late")] [Sample.cost_1]) =
    Returns alerts /\
    filter is_low_rating_alert alerts = [Low_Rating_Alert 1].
Proof.
  destruct (low_rating_alert_count
              (load_data [Sample.order_1] [] [] [] []
                 [Feedback.mk (Some "O1") (fin 2) (Some "Late")] [Sample.cost_1]))
    as (alerts & E & H & _).
  - simpl. discriminate.
  - exists alerts. split; [exact E|]. rewrite H. vm_compute. reflexivity.
Defined.

(** X11. The alerts a call of [show_alerts] returns come kind by kind in a
    fixed order: at most three critical-stock alerts, then at most two
    severe-delay alerts, then at most one low-rating alert, then at most
    three high-cost routes; never more than nine alerts.  The call returns
    when the costs table has a row. *)
Theorem show_alerts_order (data : Data) :
  (costs data <> [] -> exists alerts, show_alerts data = Returns alerts) /\
  forall alerts,
    show_alerts data = Returns alerts ->
    exists stock_alerts delay_alerts rating_alerts route_alerts,
      alerts = stock_alerts ++ delay_alerts ++ rating_alerts ++ route_alerts /\
      forallb is_critical_stock_alert stock_alerts = true /\
      forallb is_severe_delay_alert delay_alerts = true /\
      forallb is_low_rating_alert rating_alerts = true /\
      forallb is_high_cost_route route_alerts = true /\
      (List.length stock_alerts <= 3)%nat /\
      (List.length delay_alerts <= 2)%nat /\
      (List.length rating_alerts <= 1)%nat /\
      (List.length route_alerts <= 3)%nat /\
      (List.length alerts <= 9)%nat.
Proof.
  split.
  { intro Hcosts. exists (alert_sections data).
    apply show_alerts_returns. exact Hcosts. }
  intros alerts Hret. apply show_alerts_returned in Hret.
  destruct Hret as [_ ->]. unfold alert_sections.
  eexists _, _, _, _. split; [reflexivity|].
  assert (Hmap : forall (A : Type) (p : alert -> bool) (f : A -> alert) l,
            (forall x, p (f x) = true) -> forallb p (map f l) = true).
  { intros A p f l H. induction l as [|a l IH]; [reflexivity|].
    cbn [map forallb]. rewrite H, IH. reflexivity. }
  assert (L1 : (List.length
                  (map critical_stock_alert
                     (head 3 (filter is_critical (warehouse data)))) <= 3)%nat).
  { rewrite length_map. unfold head. rewrite length_firstn. lia. }
  assert (L2 : (List.length
                  (map severe_delay_alert
                     (head 2 (filter (fun r => cell_is (Merged.Delay_Severity r)
                                        "Major Delay (>5 days)") (merged data))))
                <= 2)%nat).
  { rewrite length_map. unfold head. rewrite length_firstn. lia. }
  assert (L3 : (List.length (low_rating_section (merged data)) <= 1)%nat).
  { unfold low_rating_section. cbv zeta. destruct (empty _); simpl; lia. }
  assert (L4 : (List.length
                  (map (fun rc => High_Cost_Route (fst rc) (snd rc))
                     (nlargest 3 (route_costs (merged data)))) <= 3)%nat).
  { rewrite length_map. unfold nlargest. rewrite length_firstn. lia. }
  repeat split; try assumption.
  - apply Hmap. reflexivity.
  - apply Hmap. reflexivity.
  - unfold low_rating_section. cbv zeta. destruct (empty _); reflexivity.
  - apply Hmap. reflexivity.
  - rewrite !length_app. lia.
Qed.

Lemma show_alerts_order_witness :
  exists alerts,
    show_alerts
      (load_data [Sample.order_1] [] [] [] [Sample.stock_of 1 2] []
         [Sample.cost_1]) = Returns alerts /\
    (List.length alerts <= 9)%nat.
Proof.
  destruct (show_alerts_order
              (load_data [Sample.order_1] [] [] [] [Sample.stock_of 1 2] []
                 [Sample.cost_1])) as [Hret Hord].
  destruct Hret as [alerts E].
  - simpl. discriminate.
  - exists alerts. split; [exact E|].
    destruct (Hord alerts E) as (a1 & a2 & a3 & a4 & H).
    apply H.
Defined.

(* ================================================================== *)
(** ** Sums and means of finite cells *)

Lemma fold_fadd_fin (l : list float) (a : Q) :
  Forall fin_or_null l ->
  exists q, fold_left fadd (map nan_to_zero l) (fin a) = fin q /\ q == a + Qsum l.
Proof.
  revert a. induction l as [|x l IH]; intros a H.
  - exists a. split; [reflexivity|]. simpl. ring.
  - inversion H as [|? ? Hx Hl]; subst.
    destruct x as [| |p|]; try contradiction; cbn [map fold_left nan_to_zero fadd].
    + destruct (IH (a + 0) Hl) as [q [E Hq]]. exists q. split; [exact E|].
      rewrite Hq. simpl. ring.
    + destruct (IH (a + p) Hl) as [q [E Hq]]. exists q. split; [exact E|].
      rewrite Hq. simpl. ring.
Qed.

Lemma sum_fin (l : list float) :
  Forall fin_or_null l -> exists q, sum l = fin q /\ q == Qsum l.
Proof.
  intro H. destruct (fold_fadd_fin l 0 H) as [q [E Hq]].
  exists q. split; [exact E|]. rewrite Hq. ring.
Qed.

Lemma is_fin_fin_or_null (l : list float) : Forall is_fin l -> Forall fin_or_null l.
Proof.
  apply Forall_impl. intros [| |q|]; simpl; tauto.
Qed.

Lemma dropna_is_fin (l : list float) : Forall is_fin l -> dropna l = l.
Proof.
  induction 1 as [|x l Hx Hl IH]; [reflexivity|].
  destruct x; try contradiction. simpl. fold (dropna l). rewrite IH. reflexivity.
Qed.

Lemma of_nat_S_nonzero (n : nat) : Qeq_bool (inject_Z (Z.of_nat (S n))) 0 = false.
Proof.
  destruct (Qeq_bool (inject_Z (Z.of_nat (S n))) 0) eqn:E; [|reflexivity].
  apply Qeq_bool_iff in E. unfold Qeq, inject_Z in E. simpl in E. lia.
Qed.

(** The mean of a column of finite cells that is not empty is finite: the
    sum over the count. *)
Lemma mean_is_fin (l : list float) :
  l <> [] -> Forall is_fin l ->
  exists q, mean l = fin q /\
            q == Qsum l / inject_Z (Z.of_nat (List.length l)).
Proof.
  intros Hne H. unfold mean. rewrite (dropna_is_fin l H).
  destruct l as [|x l]; [congruence|].
  destruct (sum_fin (x :: l) (is_fin_fin_or_null _ H)) as [q [E Hq]].
  rewrite E. unfold of_nat, fdiv. cbn [List.length].
  rewrite of_nat_S_nonzero.
  eexists. split; [reflexivity|]. rewrite Hq. reflexivity.
Qed.

(* ================================================================== *)
(** ** Sorting by decreasing value *)

Lemma insert_desc_perm (x : string * float) (l : list (string * float)) :
  Permutation (insert_desc x l) (x :: l).
Proof.
  induction l as [|y l IH]; simpl; [apply Permutation_refl|].
  destruct (flt (snd x) (snd y)); [|apply Permutation_refl].
  eapply perm_trans; [apply perm_skip; exact IH | apply perm_swap].
Qed.

Lemma sort_values_desc_perm (l : list (string * float)) :
  Permutation (sort_values_desc l) l.
Proof.
  unfold sort_values_desc. induction l as [|x l IH]; simpl; [constructor|].
  eapply perm_trans; [apply insert_desc_perm | apply perm_skip; exact IH].
Qed.

Lemma value_ge_of_not_flt (a b : string * float) :
  is_fin (snd a) -> is_fin (snd b) ->
  flt (snd a) (snd b) = false -> value_ge a b.
Proof.
  unfold value_ge. destruct (snd a) as [| |p|], (snd b) as [| |q|];
    simpl; try contradiction. intros _ _ H.
  rewrite Qle_bool_negb_Qlt_bool, H. reflexivity.
Qed.

Lemma value_ge_of_flt (a b : string * float) :
  flt (snd a) (snd b) = true -> value_ge b a.
Proof.
  unfold value_ge. destruct (snd a) as [| |p|], (snd b) as [| |q|];
    simpl; try discriminate; auto.
  rewrite Qlt_bool_iff, Qle_bool_iff. apply Qlt_le_weak.
Qed.

Lemma value_ge_trans (a b c : string * float) :
  is_fin (snd a) -> is_fin (snd b) -> is_fin (snd c) ->
  value_ge a b -> value_ge b c -> value_ge a c.
Proof.
  unfold value_ge. destruct (snd a) as [| |p|], (snd b) as [| |q|],
    (snd c) as [| |r|]; simpl; try contradiction. intros _ _ _.
  rewrite !Qle_bool_iff. intros H1 H2. eapply Qle_trans; eassumption.
Qed.

Lemma insert_desc_sorted (x : string * float) (l : list (string * float)) :
  is_fin (snd x) -> Forall (fun y => is_fin (snd y)) l ->
  StronglySorted value_ge l -> StronglySorted value_ge (insert_desc x l).
Proof.
  intros Hx Hl Hs. induction Hs as [|y l Hs IH Hy]; simpl.
  - constructor; constructor.
  - inversion Hl as [|? ? Hfy Hfl]; subst.
    destruct (flt (snd x) (snd y)) eqn:E.
    + constructor; [apply IH; exact Hfl|].
      apply Forall_forall. intros z Hz.
      apply (Permutation_in z (insert_desc_perm x l)) in Hz.
      destruct Hz as [<-|Hz].
      * apply value_ge_of_flt. exact E.
      * rewrite Forall_forall in Hy. apply Hy. exact Hz.
    + constructor; [constructor; assumption|].
      assert (Hxy : value_ge x y) by (apply value_ge_of_not_flt; assumption).
      constructor; [exact Hxy|].
      apply Forall_forall. intros z Hz.
      rewrite Forall_forall in Hy, Hfl.
      apply (value_ge_trans x y z); auto.
Qed.

Lemma sort_values_desc_sorted (l : list (string * float)) :
  Forall (fun y => is_fin (snd y)) l ->
  StronglySorted value_ge (sort_values_desc l).
Proof.
  unfold sort_values_desc. induction 1 as [|x l Hx Hl IH]; simpl; [constructor|].
  apply insert_desc_sorted; [exact Hx | | exact IH].
  apply Forall_forall. intros z Hz.
  apply (Permutation_in z (sort_values_desc_perm l)) in Hz.
  rewrite Forall_forall in Hl. apply Hl. exact Hz.
Qed.

Lemma StronglySorted_firstn {A : Type} (R : A -> A -> Prop) (n : nat) (l : list A) :
  StronglySorted R l ->
  StronglySorted R (firstn n l) /\
  forall a b, In a (firstn n l) -> In b (skipn n l) -> R a b.
Proof.
  intro Hs. revert n. induction Hs as [|x l Hs IH Hx]; intro n.
  - destruct n; simpl; split; try constructor; intros a b [].
  - destruct n as [|n]; simpl.
    + split; [constructor | intros a b []].
    + destruct (IH n) as [IH1 IH2]. rewrite Forall_forall in Hx. split.
      * constructor; [exact IH1|]. apply Forall_forall.
        intros z Hz. apply Hx. apply (firstn_In n l z Hz).
      * intros a b [<-|Ha] Hb.
        -- apply Hx. rewrite <- (firstn_skipn n l). apply in_or_app.
           right. exact Hb.
        -- apply IH2; assumption.
Qed.

Lemma NoDup_firstn {A : Type} (n : nat) (l : list A) :
  NoDup l -> NoDup (firstn n l).
Proof.
  intro H. revert n. induction H as [|x l Hx Hl IH]; intros [|n]; simpl;
    try constructor.
  - intro Hin. apply Hx. apply (firstn_In n l x Hin).
  - apply IH.
Qed.

(* ================================================================== *)
(** ** More on [show_alerts]: the high-cost routes *)

Section GroupFacts.
Context {A : Type} (key : A -> cell).

Lemma get_group_In (rows : list A) (k : string) (r : A) :
  In r (get_group key rows k) <-> In r rows /\ key r = Some k.
Proof.
  unfold get_group. rewrite filter_In.
  destruct (key r) as [s|]; simpl.
  - rewrite String.eqb_eq. split; intros [H1 H2]; split; congruence.
  - split; intros [H1 H2]; discriminate.
Qed.

Lemma groupby_keys (rows : list A) :
  map fst (groupby key rows) = group_keys (map key rows).
Proof. unfold groupby. rewrite map_map. apply map_id. Qed.

(** Each group of a group-by has a key that occurs in the frame, holds the
    rows of that key, and is not empty. *)
Lemma groupby_In (rows : list A) (k : string) (g : list A) :
  In (k, g) (groupby key rows) ->
  g = get_group key rows k /\ In (Some k) (map key rows) /\ g <> [].
Proof.
  unfold groupby. intro H. apply in_map_iff in H.
  destruct H as [k' [E Hin]]. injection E as -> <-.
  split; [reflexivity|]. apply In_group_keys in Hin. split; [exact Hin|].
  apply in_map_iff in Hin. destruct Hin as [r [Hk Hr]].
  intro Hnil.
  assert (H : In r (get_group key rows k)) by (apply get_group_In; auto).
  rewrite Hnil in H. exact H.
Qed.
End GroupFacts.

Lemma route_costs_In (merged : list Merged.row) (route : string) (cost : float) :
  In (route, cost) (route_costs merged) ->
  In (Some route) (map Merged.Route merged) /\
  get_group Merged.Route merged route <> [] /\
  cost = mean (map Merged.Total_Cost (get_group Merged.Route merged route)).
Proof.
  unfold route_costs. intro H. apply in_map_iff in H.
  destruct H as [[k g] [E Hin]]. cbn [fst snd] in E. injection E as -> <-.
  apply groupby_In in Hin. destruct Hin as (-> & Hk & Hne).
  repeat split; assumption.
Qed.

Lemma route_costs_keys (merged : list Merged.row) :
  map fst (route_costs merged) = group_keys (map Merged.Route merged).
Proof.
  unfold route_costs. rewrite map_map. cbn [fst].
  rewrite <- (groupby_keys Merged.Route merged). reflexivity.
Qed.

Lemma route_costs_fin (merged : list Merged.row) :
  (forall r, In r merged -> is_fin (Merged.Total_Cost r)) ->
  Forall (fun rc => is_fin (snd rc)) (route_costs merged).
Proof.
  intro H. apply Forall_forall. intros [route cost] Hin.
  apply route_costs_In in Hin. destruct Hin as (_ & Hne & ->). cbn [snd].
  destruct (mean_is_fin (map Merged.Total_Cost (get_group Merged.Route merged route)))
    as [q [-> _]]; [| |exact I].
  - intro E. apply map_eq_nil in E. exact (Hne E).
  - apply Forall_forall. intros c Hc. apply in_map_iff in Hc.
    destruct Hc as [r [<- Hr]]. apply H. apply get_group_In in Hr. apply Hr.
Qed.

Lemma filter_all {A : Type} (p : A -> bool) (l : list A) :
  Forall (fun x => p x = true) l -> filter p l = l.
Proof.
  induction 1 as [|x l Hx Hl IH]; [reflexivity|].
  simpl. rewrite Hx, IH. reflexivity.
Qed.

Lemma filter_none {A : Type} (p : A -> bool) (l : list A) :
  Forall (fun x => p x = false) l -> filter p l = [].
Proof.
  induction 1 as [|x l Hx Hl IH]; [reflexivity|].
  simpl. rewrite Hx. exact IH.
Qed.

(** X12. When the costs table has a row and every unified record has a
    finite total cost, [show_alerts] returns, and its high-cost routes are
    the three routes of largest mean total cost (all routes when there are
    fewer), each route once, by decreasing mean: no route left out has a
    larger mean than a route shown. *)
Theorem high_cost_routes_top3 (data : Data) :
  costs data <> [] ->
  (forall r, In r (merged data) -> is_fin (Merged.Total_Cost r)) ->
  let route_means := route_costs (merged data) in
  let top := nlargest 3 route_means in
  exists alerts,
    show_alerts data = Returns alerts /\
    filter is_high_cost_route alerts =
      map (fun rc => High_Cost_Route (fst rc) (snd rc)) top /\
    List.length top = Nat.min (List.length route_means) 3 /\
    NoDup (map fst top) /\
    (forall route cost, In (route, cost) top ->
       In (Some route) (map Merged.Route (merged data)) /\
       cost = mean (map Merged.Total_Cost
                      (get_group Merged.Route (merged data) route))) /\
    StronglySorted value_ge top /\
    (forall rc tc, In rc route_means -> ~ In rc top -> In tc top ->
                   value_ge tc rc).
Proof.
  intros Hcosts Hfin route_means top.
  pose proof (route_costs_fin (merged data) Hfin) as Hcf. fold route_means in Hcf.
  assert (Etop : top = firstn 3 (sort_values_desc route_means)).
  { unfold top, nlargest. rewrite filter_all, filter_none.
    - rewrite app_nil_r. reflexivity.
    - revert Hcf. apply Forall_impl. intros [k c]. cbn [snd].
      destruct c; simpl; tauto.
    - revert Hcf. apply Forall_impl. intros [k c]. cbn [snd].
      destruct c; simpl; tauto. }
  pose proof (sort_values_desc_perm route_means) as Hperm.
  pose proof (sort_values_desc_sorted route_means Hcf) as Hsorted.
  destruct (StronglySorted_firstn value_ge 3 _ Hsorted) as [Hs1 Hs2].
  exists (alert_sections data).
  split; [apply show_alerts_returns; exact Hcosts|].
  split; [|split; [|split; [|split; [|split]]]].
  - unfold alert_sections. rewrite !filter_app.
    rewrite (filter_map_none is_high_cost_route critical_stock_alert)
      by reflexivity.
    rewrite (filter_map_none is_high_cost_route severe_delay_alert)
      by reflexivity.
    rewrite (filter_map_all is_high_cost_route
               (fun rc => High_Cost_Route (fst rc) (snd rc))) by reflexivity.
    rewrite low_rating_section_kind by reflexivity. reflexivity.
  - rewrite Etop, length_firstn, (Permutation_length Hperm). apply Nat.min_comm.
  - rewrite Etop, <- firstn_map. apply NoDup_firstn.
    apply (Permutation_NoDup (Permutation_map fst (Permutation_sym Hperm))).
    unfold route_means. rewrite route_costs_keys. apply NoDup_group_keys.
  - intros route cost Hin. rewrite Etop in Hin. apply firstn_In in Hin.
    apply (Permutation_in _ Hperm) in Hin.
    apply route_costs_In in Hin. destruct Hin as (H1 & _ & H2). split; assumption.
  - rewrite Etop. exact Hs1.
  - intros rc tc Hrc Hnot Htc. rewrite Etop in Hnot, Htc.
    apply Hs2; [exact Htc|].
    apply (Permutation_in _ (Permutation_sym Hperm)) in Hrc.
    rewrite <- (firstn_skipn 3 (sort_values_desc route_means)) in Hrc.
    apply in_app_or in Hrc. destruct Hrc as [Hrc|Hrc]; [contradiction | exact Hrc].
Qed.

Lemma high_cost_routes_top3_witness :
  exists alerts,
    show_alerts
      (load_data [Sample.order_1; Sample.order_2] [Sample.delivery_1]
         [Sample.route_1] [] [] [] [Sample.cost_1]) = Returns alerts /\
    filter is_high_cost_route alerts = [High_Cost_Route "Pune-Goa" (fin 150)].
Proof.
  destruct (high_cost_routes_top3
              (load_data [Sample.order_1; Sample.order_2] [Sample.delivery_1]
                 [Sample.route_1] [] [] [] [Sample.cost_1]))
    as (alerts & E & H & _).
  - simpl. discriminate.
  - intros r [<-|[<-|[]]]; exact I.
  - exists alerts. split; [exact E|]. rewrite H. vm_compute. reflexivity.
Defined.

(* ================================================================== *)
(** ** More on [create_kpi_metrics] *)

Lemma count_true_le_length (bs : list bool) :
  (List.length (filter (fun b => b) bs) <= List.length bs)%nat.
Proof.
  induction bs as [|[|] bs IH]; simpl; lia.
Qed.

Lemma Q_ratio_bounds (c n : nat) :
  (c <= S n)%nat ->
  0 <= inject_Z (Z.of_nat c) / inject_Z (Z.of_nat (S n)) /\
  inject_Z (Z.of_nat c) / inject_Z (Z.of_nat (S n)) <= 1.
Proof.
  intro H.
  assert (Hn : 0 < inject_Z (Z.of_nat (S n))).
  { unfold Qlt, inject_Z. simpl. lia. }
  split.
  - apply Qle_shift_div_l; [exact Hn|]. rewrite Qmult_0_l.
    unfold Qle, inject_Z. simpl. lia.
  - apply Qle_shift_div_r; [exact Hn|]. rewrite Qmult_1_l.
    unfold Qle, inject_Z. simpl. lia.
Qed.

(** The mean of a boolean column that is not empty is a rate between 0 and
    1: it is never null. *)
Lemma mean_bool_bounds (bs : list bool) :
  bs <> [] -> exists q, mean_bool bs = fin q /\ 0 <= q /\ q <= 1.
Proof.
  intro Hne. pose proof (mean_bool_ratio bs) as H.
  destruct bs as [|b bs]; [congruence|].
  unfold of_nat, fdiv in H. cbn [List.length] in H.
  rewrite of_nat_S_nonzero in H.
  apply feq_fin_inv in H. destruct H as [p [-> Hp]].
  exists p. split; [reflexivity|]. rewrite Hp.
  apply (Q_ratio_bounds _ (List.length bs)).
  apply (count_true_le_length (b :: bs)).
Qed.

(** X13. The on-time rate card is null for an empty unified set and otherwise a
    percentage between 0 and 100. *)
Theorem on_time_rate_bounds (data : Data) :
  (merged data = [] -> on_time_rate (create_kpi_metrics data) = nan) /\
  (merged data <> [] ->
   exists q, on_time_rate (create_kpi_metrics data) = fin q /\
             0 <= q /\ q <= 100).
Proof.
  unfold create_kpi_metrics. cbn [on_time_rate]. split.
  - intros ->. reflexivity.
  - intro Hne.
    destruct (mean_bool_bounds (map Merged.On_Time (merged data)))
      as [q [-> [H0 H1]]].
    + intro E. apply map_eq_nil in E. exact (Hne E).
    + exists (q * 100). split; [reflexivity|]. split.
      * apply Qmult_le_0_compat; [exact H0 | discriminate].
      * setoid_replace 100 with (1 * 100) at 2 by ring.
        apply Qmult_le_compat_r; [exact H1 | discriminate].
Qed.

Lemma on_time_rate_bounds_witness :
  exists q,
    on_time_rate
      (create_kpi_metrics
         (load_data [Sample.order_1; Sample.order_2] [Sample.delivery_1]
            [] [] [] [] [])) = fin q /\ q <= 100.
Proof.
  destruct (on_time_rate_bounds
              (load_data [Sample.order_1; Sample.order_2] [Sample.delivery_1]
                 [] [] [] [] [])) as [_ H].
  destruct H as [q [E [_ H100]]].
  - vm_compute. discriminate.
  - exists q. split; [exact E | exact H100].
Defined.

Lemma fadd_nonnegative_positive (a x : float) :
  nonnegative a -> positive x -> positive (fadd a x).
Proof.
  unfold nonnegative, positive.
  destruct a as [| |p|], x as [| |q|]; simpl; try discriminate; auto.
  rewrite Qle_bool_iff, !Qlt_bool_iff. intros Hp Hq.
  rewrite Qplus_comm. setoid_replace 0 with (0 + 0) by ring.
  apply Qplus_lt_le_compat; assumption.
Qed.

Lemma positive_nonnegative (x : float) : positive x -> nonnegative x.
Proof.
  unfold nonnegative, positive. destruct x as [| |q|]; simpl; auto.
  rewrite Qle_bool_iff, Qlt_bool_iff. apply Qlt_le_weak.
Qed.

Lemma fold_fadd_positive (l : list float) (a : float) :
  Forall positive l -> nonnegative a -> l <> [] ->
  positive (fold_left fadd (map nan_to_zero l) a).
Proof.
  intro H. revert a. induction H as [|x l Hx Hl IH]; intros a Ha Hne;
    [congruence|].
  cbn [map fold_left].
  assert (Ex : nan_to_zero x = x) by (destruct x; [discriminate Hx | reflexivity..]).
  rewrite Ex.
  pose proof (fadd_nonnegative_positive a x Ha Hx) as Hax.
  destruct l as [|y l]; [exact Hax|].
  apply IH; [apply positive_nonnegative; exact Hax | discriminate].
Qed.

(** The mean of a column of positive cells that is not empty is positive. *)
Lemma mean_positive (l : list float) :
  l <> [] -> Forall positive l -> positive (mean l).
Proof.
  intros Hne H. unfold mean.
  assert (E : dropna l = l).
  { apply filter_all. revert H. apply Forall_impl.
    intros x Hx. destruct x; [discriminate Hx | reflexivity..]. }
  rewrite E. destruct l as [|x l]; [congruence|].
  pose proof (fold_fadd_positive (x :: l) (fin 0) H eq_refl Hne) as Hs.
  unfold sum. unfold positive in *.
  destruct (fold_left fadd (map nan_to_zero (x :: l)) (fin 0)) as [| |q|];
    try discriminate.
  - unfold of_nat, fdiv. cbn [List.length]. rewrite of_nat_S_nonzero.
    simpl in Hs. simpl. apply Qlt_bool_iff in Hs. apply Qlt_bool_iff.
    apply Qlt_shift_div_l; [unfold Qlt, inject_Z; simpl; lia|].
    rewrite Qmult_0_l. exact Hs.
  - unfold of_nat, fdiv. cbn [List.length].
    assert (F : Qlt_bool (inject_Z (Z.of_nat (S (List.length l)))) 0 = false).
    { apply Qlt_bool_false_iff. unfold Qle, inject_Z. simpl. lia. }
    rewrite F. reflexivity.
Qed.

(** X14. The average-delay card is the mean over the late records only (delay
    above 0): it is null when no record is late and positive otherwise;
    early and on-time records do not lower it. *)
Theorem avg_delay_over_late_records (data : Data) :
  let late :=
    filter (fun r => flt (fin 0) (Merged.Delivery_Delay_Days r)) (merged data) in
  avg_delay (create_kpi_metrics data) =
    mean (map Merged.Delivery_Delay_Days late) /\
  (late = [] -> avg_delay (create_kpi_metrics data) = nan) /\
  (late <> [] -> flt (fin 0) (avg_delay (create_kpi_metrics data)) = true).
Proof.
  intro late. unfold create_kpi_metrics. cbn [avg_delay]. fold late.
  split; [reflexivity|]. split.
  - intros ->. reflexivity.
  - intro Hne. apply mean_positive.
    + intro E. apply map_eq_nil in E. exact (Hne E).
    + apply Forall_forall. intros d Hd. apply in_map_iff in Hd.
      destruct Hd as [r [<- Hr]]. unfold late in Hr.
      apply filter_In in Hr. apply Hr.
Qed.

Lemma avg_delay_over_late_records_witness :
  flt (fin 0)
    (avg_delay
       (create_kpi_metrics
          (load_data [Sample.order_1; Sample.order_2] [Sample.delivery_1]
             [] [] [] [] []))) = true.
Proof.
  destruct (avg_delay_over_late_records
              (load_data [Sample.order_1; Sample.order_2] [Sample.delivery_1]
                 [] [] [] [] [])) as (_ & _ & H).
  apply H. vm_compute. discriminate.
Defined.

(** X15. The profit-margin card never divides by zero: it is 0 when the total
    revenue is not above 0, as for an empty unified set; for a finite
    positive revenue and a finite cost it is the finite percentage
    [(revenue - cost) / revenue * 100], at most 100 when the cost is not
    negative. *)
Theorem profit_margin_guard (data : Data) :
  let kpi := create_kpi_metrics data in
  (flt (fin 0) (total_revenue kpi) = false -> profit_margin kpi = fin 0) /\
  (merged data = [] -> profit_margin kpi = fin 0) /\
  (forall revenue cost,
     total_revenue kpi = fin revenue -> 0 < revenue ->
     total_cost kpi = fin cost ->
     exists m, profit_margin kpi = fin m /\
               m == (revenue - cost) / revenue * 100 /\
               (0 <= cost -> m <= 100)).
Proof.
  intro kpi. split; [|split].
  - unfold profit_margin. intros ->. reflexivity.
  - unfold kpi, create_kpi_metrics, profit_margin. intros ->. reflexivity.
  - intros revenue cost Hr Hpos Hc. unfold profit_margin.
    rewrite Hr, Hc. cbn [flt].
    apply Qlt_bool_iff in Hpos. rewrite Hpos. apply Qlt_bool_iff in Hpos.
    assert (E : Qeq_bool revenue 0 = false).
    { destruct (Qeq_bool revenue 0) eqn:E; [|reflexivity].
      apply Qeq_bool_iff in E. rewrite E in Hpos.
      exfalso. exact (Qlt_irrefl 0 Hpos). }
    cbn [fsub fneg fadd fdiv fmul]. rewrite E. cbn [fmul].
    eexists. split; [reflexivity|]. split; [reflexivity|].
    intro Hcost.
    setoid_replace 100 with (1 * 100) at 2 by ring.
    apply Qmult_le_compat_r; [|discriminate].
    apply Qle_shift_div_r; [exact Hpos|]. rewrite Qmult_1_l.
    setoid_replace revenue with (revenue + - 0) at 2 by ring.
    apply Qplus_le_compat; [apply Qle_refl|].
    apply Qopp_le_compat. exact Hcost.
Qed.

Lemma profit_margin_guard_witness :
  exists m,
    profit_margin
      (create_kpi_metrics
         (load_data [Sample.order_1] [] [] [] [] [] [Sample.cost_1])) = fin m /\
    m <= 100.
Proof.
  destruct (profit_margin_guard
              (load_data [Sample.order_1] [] [] [] [] [] [Sample.cost_1]))
    as (_ & _ & H).
  destruct (H 1000 150) as [m [E [_ Hm]]].
  - vm_compute. reflexivity.
  - reflexivity.
  - vm_compute. reflexivity.
  - exists m. split; [exact E|]. apply Hm. discriminate.
Defined.

(* ================================================================== *)
(** ** The filters of [main] *)

Lemma filter_when {A : Type} (b : bool) (p : A -> bool) (l : list A) :
  (if b then filter p l else l) = filter (fun x => negb b || p x) l.
Proof.
  destruct b; cbn [negb orb]; [reflexivity|].
  induction l as [|a l IH]; simpl; congruence.
Qed.

Lemma filter_twice {A : Type} (p q : A -> bool) (l : list A) :
  filter q (filter p l) = filter (fun x => p x && q x) l.
Proof.
  induction l as [|a l IH]; [reflexivity|].
  simpl. destruct (p a); simpl; [destruct (q a)|]; congruence.
Qed.

Lemma isin_In (c : cell) (values : list cell) : isin c values = true <-> In c values.
Proof.
  unfold isin. rewrite existsb_exists. split.
  - intros [v [Hv E]]. apply cell_eqb_eq in E. subst. exact Hv.
  - intro H. exists c. split; [exact H | apply cell_eqb_eq; reflexivity].
Qed.

Lemma isin_Some (c : cell) (values : list string) :
  isin c (map Some values) = true <-> exists v, In v values /\ c = Some v.
Proof.
  rewrite isin_In, in_map_iff. split; intros [v [H1 H2]]; exists v; auto.
Qed.

(** X16. The filtered view holds exactly the unified records that pass every
    selection that is not empty, in their order: an empty selection filters
    nothing (with the three of them empty the view is the whole set), and as
    soon as a carrier is selected a record without carrier, such as an order
    without route row, is left out. *)
Theorem filtered_data_selection
    (priorities selected_carriers : list string) (selected_categories : list cell)
    (merged : list Merged.row) :
  filtered_data priorities selected_carriers selected_categories merged =
    filter (fun r =>
              (empty priorities || isin (Merged.Priority r) (map Some priorities))
              && (empty selected_carriers
                  || isin (Merged.Carrier r) (map Some selected_carriers))
              && (empty selected_categories
                  || isin (Merged.Product_Category r) selected_categories))
      merged /\
  filtered_data [] [] [] merged = merged /\
  (forall r,
     In r (filtered_data priorities selected_carriers selected_categories merged) <->
     In r merged /\
     (priorities = [] \/
      exists p, In p priorities /\ Merged.Priority r = Some p) /\
     (selected_carriers = [] \/
      exists c, In c selected_carriers /\ Merged.Carrier r = Some c) /\
     (selected_categories = [] \/
      In (Merged.Product_Category r) selected_categories)) /\
  (selected_carriers <> [] ->
   forall r,
     In r (filtered_data priorities selected_carriers selected_categories merged) ->
     Merged.Carrier r <> None).
Proof.
  assert (Hfilter :
    filtered_data priorities selected_carriers selected_categories merged =
    filter (fun r =>
              (empty priorities || isin (Merged.Priority r) (map Some priorities))
              && (empty selected_carriers
                  || isin (Merged.Carrier r) (map Some selected_carriers))
              && (empty selected_categories
                  || isin (Merged.Product_Category r) selected_categories))
      merged).
  { unfold filtered_data. cbv zeta.
    rewrite !filter_when, !filter_twice. apply filter_ext. intro r.
    rewrite !negb_involutive. apply andb_assoc. }
  assert (Hempty : forall (A : Type) (l : list A), empty l = true <-> l = []).
  { intros A [|a l]; simpl; split; congruence. }
  assert (Hin : forall r,
     In r (filtered_data priorities selected_carriers selected_categories merged) <->
     In r merged /\
     (priorities = [] \/
      exists p, In p priorities /\ Merged.Priority r = Some p) /\
     (selected_carriers = [] \/
      exists c, In c selected_carriers /\ Merged.Carrier r = Some c) /\
     (selected_categories = [] \/
      In (Merged.Product_Category r) selected_categories)).
  { intro r. rewrite Hfilter, filter_In, !andb_true_iff, !orb_true_iff.
    rewrite !Hempty, !isin_Some, isin_In. tauto. }
  split; [exact Hfilter|]. split; [|split; [exact Hin|]].
  - unfold filtered_data. reflexivity.
  - intros Hne r Hr. apply Hin in Hr.
    destruct Hr as (_ & _ & [E | [c [_ E]]] & _); congruence.
Qed.

Lemma filtered_data_selection_witness :
  Merged.Carrier
    (metrics (Sample.order_1, None, Some Sample.route_1, None, None)) <> None.
Proof.
  destruct (filtered_data_selection [] ["BlueDart"] []
              (merged (load_data [Sample.order_1; Sample.order_2] []
                         [Sample.route_1] [] [] [] []))) as (_ & _ & _ & H).
  apply H.
  - discriminate.
  - vm_compute. left. reflexivity.
Defined.

(* ================================================================== *)
(** ** The stock lists of [main] *)

(** X17. The "items needing immediate attention" are the warehouse records
    whose stock ratio is above 0 and at most 0.8, all of them; the "excess
    stock" ones those whose ratio is above 1.2.  A record with a stock of 0
    (and a positive reorder level) is in neither list. *)
Theorem stock_lists_by_ratio
    orders delivery routes vehicles ws feedback costs :
  let data := load_data orders delivery routes vehicles ws feedback costs in
  (forall w, In w (critical_items data) <->
     In w (warehouse data) /\
     flt (fin 0) (Warehouse.Stock_Ratio w) = true /\
     fle (Warehouse.Stock_Ratio w) (fin (8 # 10)) = true) /\
  (forall w, In w (excess_items data) <->
     In w (warehouse data) /\
     flt (fin (12 # 10)) (Warehouse.Stock_Ratio w) = true) /\
  (forall w0 c r,
     Warehouse.Current_Stock_Units w0 = fin c -> c == 0 ->
     Warehouse.Reorder_Level w0 = fin r -> 0 < r ->
     ~ In (stock w0) (critical_items data) /\
     ~ In (stock w0) (excess_items data)).
Proof.
  intro data.
  assert (Hstatus : forall w, In w (warehouse data) ->
            Warehouse.Stock_Status w =
            cut stock_bins stock_labels (Warehouse.Stock_Ratio w)).
  { intros w Hw. apply warehouse_row_stock in Hw. destruct Hw as [w0 [_ ->]].
    apply Stock_Status_stock. }
  assert (Hcrit : forall w, In w (critical_items data) <->
     In w (warehouse data) /\
     flt (fin 0) (Warehouse.Stock_Ratio w) = true /\
     fle (Warehouse.Stock_Ratio w) (fin (8 # 10)) = true).
  { intro w. unfold critical_items. rewrite filter_In.
    split; intros [Hw H]; (split; [exact Hw|]);
      rewrite (Hstatus w Hw), cut_stock_all in *;
      pose proof (flt_fin_mono 0 (5 # 10) (Warehouse.Stock_Ratio w)) as M1;
      pose proof (flt_fin_mono (5 # 10) (8 # 10) (Warehouse.Stock_Ratio w)) as M2;
      pose proof (not_above_is_at_most 0 (8 # 10) (Warehouse.Stock_Ratio w)) as A;
      destruct (flt (fin 0) (Warehouse.Stock_Ratio w)) eqn:E0;
      destruct (flt (fin (5 # 10)) (Warehouse.Stock_Ratio w)) eqn:E1;
      destruct (flt (fin (8 # 10)) (Warehouse.Stock_Ratio w)) eqn:E2;
      try (specialize (M1 ltac:(discriminate) eq_refl); discriminate);
      try (specialize (M2 ltac:(discriminate) eq_refl); discriminate);
      try (destruct (flt (fin (12 # 10)) (Warehouse.Stock_Ratio w));
           discriminate);
      try reflexivity;
      try (split; [reflexivity | apply (A eq_refl); reflexivity]);
      try (destruct H as [H1 H2]; try discriminate;
           apply (A eq_refl) in H2; discriminate). }
  assert (Hexc : forall w, In w (excess_items data) <->
     In w (warehouse data) /\
     flt (fin (12 # 10)) (Warehouse.Stock_Ratio w) = true).
  { intro w. unfold excess_items. rewrite filter_In.
    split; intros [Hw H]; (split; [exact Hw|]);
      rewrite (Hstatus w Hw), cut_stock_all in *;
      pose proof (flt_fin_mono 0 (12 # 10) (Warehouse.Stock_Ratio w)) as M1;
      pose proof (flt_fin_mono (5 # 10) (12 # 10) (Warehouse.Stock_Ratio w)) as M2;
      pose proof (flt_fin_mono (8 # 10) (12 # 10) (Warehouse.Stock_Ratio w)) as M3;
      destruct (flt (fin (12 # 10)) (Warehouse.Stock_Ratio w)) eqn:E3;
      try (rewrite (M1 ltac:(discriminate) eq_refl),
             (M2 ltac:(discriminate) eq_refl),
             (M3 ltac:(discriminate) eq_refl) in *);
      try reflexivity; try discriminate.
    destruct (flt (fin 0) (Warehouse.Stock_Ratio w));
      [destruct (flt (fin (5 # 10)) (Warehouse.Stock_Ratio w));
       [destruct (flt (fin (8 # 10)) (Warehouse.Stock_Ratio w))|]|];
      discriminate. }
  split; [exact Hcrit|]. split; [exact Hexc|].
  intros w0 c r Hc Hc0 Hr Hr0.
  destruct (stock_status_zero w0 c r Hc Hc0 Hr Hr0) as [Hratio _].
  apply feq_fin_inv in Hratio. destruct Hratio as [p [Ep Hp]].
  assert (F0 : flt (fin 0) (Warehouse.Stock_Ratio (stock w0)) = false).
  { rewrite Ep. cbn [flt]. apply Qlt_bool_false_iff. rewrite Hp. apply Qle_refl. }
  split; intro Hin.
  - apply Hcrit in Hin. destruct Hin as (_ & H & _). congruence.
  - apply Hexc in Hin. destruct Hin as (_ & H).
    apply (flt_fin_mono 0 (12 # 10)) in H; [congruence | discriminate].
Qed.

Lemma stock_lists_by_ratio_witness :
  ~ In (stock (Sample.stock_of 0 5))
       (critical_items
          (load_data [] [] [] [] [Sample.stock_of 1 2; Sample.stock_of 0 5] [] [])).
Proof.
  destruct (stock_lists_by_ratio [] [] [] []
              [Sample.stock_of 1 2; Sample.stock_of 0 5] [] []) as (_ & _ & H).
  destruct (H (Sample.stock_of 0 5) 0 5) as [H1 _]; try reflexivity.
  exact H1.
Defined.

(* ================================================================== *)
(** ** The frames of [create_visualizations] *)

Lemma filter_length_le_all {A : Type} (p : A -> bool) (l : list A) :
  (List.length (filter p l) <= List.length l)%nat.
Proof.
  induction l as [|a l IH]; simpl; [lia|]. destruct (p a); simpl; lia.
Qed.

(** X18. [carrier_stats] has exactly one row for each carrier of the unified set
    (records without carrier belong to none).  Its on-time rate is never
    null: it is the share, between 0 and 1, of the carrier's records that
    are on time, a record with a null delay counting as not on time.  Its
    order count is the number of the carrier's records whose [Order_ID] is
    not null. *)
Theorem carrier_stats_rows (merged : list Merged.row) :
  NoDup (map CarrierStats.Carrier (carrier_stats merged)) /\
  (forall k, In k (map CarrierStats.Carrier (carrier_stats merged)) <->
             In (Some k) (map Merged.Carrier merged)) /\
  forall row, In row (carrier_stats merged) ->
    let group := get_group Merged.Carrier merged (CarrierStats.Carrier row) in
    group <> [] /\
    (exists q, CarrierStats.On_Time row = fin q /\ 0 <= q /\ q <= 1 /\
               q == inject_Z (Z.of_nat (List.length (filter Merged.On_Time group)))
                    / inject_Z (Z.of_nat (List.length group))) /\
    CarrierStats.Order_Count row =
      List.length (filter (fun r => match Merged.Order_ID r with
                                    | Some _ => true
                                    | None => false
                                    end) group) /\
    (CarrierStats.Order_Count row <= List.length group)%nat.
Proof.
  assert (Hkeys : map CarrierStats.Carrier (carrier_stats merged) =
                  group_keys (map Merged.Carrier merged)).
  { unfold carrier_stats, groupby. rewrite !map_map. apply map_id. }
  split; [rewrite Hkeys; apply NoDup_group_keys|]. split.
  - intro k. rewrite Hkeys. apply In_group_keys.
  - intros row Hrow group. unfold carrier_stats in Hrow.
    apply in_map_iff in Hrow. destruct Hrow as [[k g] [<- Hin]].
    apply groupby_In in Hin. destruct Hin as (-> & _ & Hne).
    unfold group. cbn [fst snd CarrierStats.Carrier CarrierStats.On_Time
                       CarrierStats.Order_Count].
    set (g := get_group Merged.Carrier merged k) in *.
    assert (Hcount : count_notna (map Merged.Order_ID g) =
              List.length (filter (fun r => match Merged.Order_ID r with
                                            | Some _ => true
                                            | None => false
                                            end) g)).
    { unfold count_notna. clear Hne. induction g as [|r g IH]; [reflexivity|].
      simpl. destruct (Merged.Order_ID r); simpl; congruence. }
    split; [exact Hne|]. split; [|split].
    + pose proof (mean_bool_ratio (map Merged.On_Time g)) as H.
      rewrite filter_map_bool, length_map in H.
      destruct g as [|r g']; [congruence|].
      remember (r :: g') as g0 eqn:Eg.
      assert (Hlen : exists n, List.length g0 = S n)
        by (rewrite Eg; eexists; reflexivity).
      destruct Hlen as [n Hn].
      unfold of_nat, fdiv in H. rewrite Hn, of_nat_S_nonzero in H.
      apply feq_fin_inv in H. destruct H as [p [-> Hp]].
      exists p. split; [reflexivity|].
      pose proof (Q_ratio_bounds (List.length (filter Merged.On_Time g0)) n) as B.
      rewrite <- Hp in B. destruct B as [B0 B1].
      * rewrite <- Hn. apply filter_length_le_all.
      * split; [exact B0|]. split; [exact B1|]. rewrite Hn. exact Hp.
    + exact Hcount.
    + rewrite Hcount. apply filter_length_le_all.
Qed.

Lemma carrier_stats_rows_witness :
  exists q,
    CarrierStats.On_Time
      (CarrierStats.mk "BlueDart" (mean_bool [false]) (mean [nan])
         (mean [fin 0]) 1) = fin q /\ q <= 1.
Proof.
  destruct (carrier_stats_rows
              (merged (load_data [Sample.order_1; Sample.order_2]
                         [Sample.delivery_1] [Sample.route_1] [] [] [] [])))
    as (_ & _ & H).
  destruct (H (CarrierStats.mk "BlueDart" (mean_bool [false]) (mean [nan])
                 (mean [fin 0]) 1))
    as (_ & (q & E & _ & H1 & _) & _).
  - vm_compute. left. reflexivity.
  - exists q. split; [exact E | exact H1].
Defined.

(* ================================================================== *)
(** ** Unguarded divisions behind the charts *)

Lemma fold_fadd_from_inf (zs : list float) :
  Forall (fun z => z <> nan /\ z <> neg_inf) zs -> fold_left fadd zs inf = inf.
Proof.
  induction 1 as [|z zs [Hn Hi] Hzs IH]; [reflexivity|].
  cbn [fold_left]. destruct z; try congruence; exact IH.
Qed.

Lemma fold_fadd_meets_inf (zs : list float) (a : Q) :
  Forall (fun z => z <> nan /\ z <> neg_inf) zs -> In inf zs ->
  fold_left fadd zs (fin a) = inf.
Proof.
  intro H. revert a. induction H as [|z zs [Hn Hi] Hzs IH]; intros a Hin;
    [destruct Hin|].
  cbn [fold_left]. destruct z as [| |q|]; try congruence.
  - apply IH. destruct Hin as [E|Hin]; [discriminate | exact Hin].
  - apply fold_fadd_from_inf. exact Hzs.
Qed.

(** A column with an infinite cell and no minus infinite one has an infinite
    mean. *)
Lemma mean_with_inf (l : list float) :
  In inf l -> ~ In neg_inf l -> mean l = inf.
Proof.
  intros Hinf Hneg. unfold mean, sum.
  assert (Hin : In inf (dropna l)) by (apply filter_In; split; [exact Hinf | reflexivity]).
  assert (Hok : Forall (fun z => z <> nan /\ z <> neg_inf)
                  (map nan_to_zero (dropna l))).
  { apply Forall_forall. intros z Hz. apply in_map_iff in Hz.
    destruct Hz as [y [<- Hy]]. apply filter_In in Hy. destruct Hy as [Hy Hnan].
    destruct y; simpl; try discriminate; split; try discriminate.
    exfalso. exact (Hneg Hy). }
  destruct (dropna l) as [|y ys] eqn:E; [destruct Hin|].
  rewrite (fold_fadd_meets_inf _ 0 Hok).
  - unfold of_nat, fdiv. cbn [List.length].
    assert (F : Qlt_bool (inject_Z (Z.of_nat (S (List.length ys)))) 0 = false).
    { apply Qlt_bool_false_iff. unfold Qle, inject_Z. simpl. lia. }
    rewrite F. reflexivity.
  - apply (in_map nan_to_zero) in Hin. exact Hin.
Qed.

(** X20. One vehicle with emissions of exactly 0 and a positive fuel efficiency
    makes the mean efficiency score of its whole vehicle type infinite in
    the fleet chart (no score of the type being minus infinite). *)
Theorem zero_emission_type_mean
    orders delivery routes fleet warehouse feedback costs
    (v : Vehicle.row) (k : string) (p c : Q) :
  In v fleet ->
  Vehicle.Vehicle_Type v = Some k ->
  Vehicle.Fuel_Efficiency_KM_per_L v = fin p -> 0 < p ->
  Vehicle.CO2_Emissions_Kg_per_KM v = fin c -> c == 0 ->
  (forall u, In u fleet -> Vehicle.Vehicle_Type u = Some k ->
             Vehicle.Efficiency_Score (score u) <> neg_inf) ->
  exists row,
    In row (vehicle_efficiency
              (vehicles (load_data orders delivery routes fleet warehouse
                           feedback costs))) /\
    VehicleEfficiency.Vehicle_Type row = k /\
    VehicleEfficiency.Efficiency_Score row = inf.
Proof.
  intros Hv Hk Hp Hp0 Hc Hc0 Hneg. cbn [vehicles load_data].
  set (scored := map score fleet).
  set (key := fun u : Vehicle.scored => Vehicle.Vehicle_Type (Vehicle.base u)).
  assert (Hscore : Vehicle.Efficiency_Score (score v) = inf).
  { unfold score. cbn [Vehicle.Efficiency_Score]. rewrite Hp, Hc. unfold fdiv.
    apply Qeq_bool_iff in Hc0. rewrite Hc0.
    assert (E : Qeq_bool p 0 = false).
    { destruct (Qeq_bool p 0) eqn:E; [|reflexivity].
      apply Qeq_bool_iff in E. rewrite E in Hp0.
      exfalso. exact (Qlt_irrefl 0 Hp0). }
    apply Qlt_bool_iff in Hp0. rewrite E, Hp0. reflexivity. }
  assert (Hgroup : In (score v) (get_group key scored k)).
  { apply get_group_In. split; [apply in_map; exact Hv | exact Hk]. }
  exists (VehicleEfficiency.mk k
            (mean (map Vehicle.Efficiency_Score (get_group key scored k)))
            (mean (map (fun u => Vehicle.Fuel_Efficiency_KM_per_L (Vehicle.base u))
                     (get_group key scored k)))
            (mean (map (fun u => Vehicle.CO2_Emissions_Kg_per_KM (Vehicle.base u))
                     (get_group key scored k)))).
  split; [|split; [reflexivity|]].
  - unfold vehicle_efficiency, groupby. rewrite map_map.
    apply in_map_iff. exists k. split; [reflexivity|].
    apply In_group_keys. apply in_map_iff. exists (score v).
    split; [exact Hk | apply in_map; exact Hv].
  - cbn [VehicleEfficiency.Efficiency_Score]. apply mean_with_inf.
    + rewrite <- Hscore. apply in_map. exact Hgroup.
    + intro Hin. apply in_map_iff in Hin. destruct Hin as [u' [Eu Hu']].
      apply get_group_In in Hu'. destruct Hu' as [Hu' Hku].
      apply in_map_iff in Hu'. destruct Hu' as [u [<- Hu]].
      exact (Hneg u Hu Hku Eu).
Qed.

Lemma zero_emission_type_mean_witness :
  exists row,
    In row (vehicle_efficiency
              (vehicles (load_data [] [] []
                           [Sample.vehicle_zero_emissions;
                            Vehicle.mk (Some "Electric Van") (fin 10) (fin 2)]
                           [] [] []))) /\
    VehicleEfficiency.Vehicle_Type row = "Electric Van" /\
    VehicleEfficiency.Efficiency_Score row = inf.
Proof.
  apply (zero_emission_type_mean [] [] []
           [Sample.vehicle_zero_emissions;
            Vehicle.mk (Some "Electric Van") (fin 10) (fin 2)] [] [] []
           Sample.vehicle_zero_emissions "Electric Van" 12 0).
  - left. reflexivity.
  - reflexivity.
  - reflexivity.
  - reflexivity.
  - reflexivity.
  - reflexivity.
  - intros u [<-|[<-|[]]] _; vm_compute; discriminate.
Defined.

Lemma Qsum_zero (l : list float) :
  Forall (fun x => feq x (fin 0)) l -> Forall is_fin l /\ Qsum l == 0.
Proof.
  induction 1 as [|x l Hx Hl [IH1 IH2]]; [split; [constructor | reflexivity]|].
  apply feq_fin_inv in Hx. destruct Hx as [p [-> Hp]]. split.
  - constructor; [exact I | exact IH1].
  - cbn [Qsum fold_right to_Q]. fold (Qsum l). rewrite Hp, IH2. ring.
Qed.

(** X21. The route chart divides the mean total cost of a route by its mean
    distance without the guard [load_data] applies to each record: a route
    whose records all have a distance of exactly 0 and a positive total cost
    gets an infinite [Cost_per_KM]. *)
Theorem zero_distance_route_cost_per_km (merged : list Merged.row) (k : string) :
  In (Some k) (map Merged.Route merged) ->
  (forall r, In r merged -> Merged.Route r = Some k ->
             feq (Merged.Distance_KM r) (fin 0) /\
             positive (Merged.Total_Cost r)) ->
  exists row,
    In row (route_efficiency merged) /\
    RouteEfficiency.Route row = k /\
    feq (RouteEfficiency.Distance_KM row) (fin 0) /\
    RouteEfficiency.Cost_per_KM row = inf.
Proof.
  intros Hk Hrows.
  set (g := get_group Merged.Route merged k).
  assert (Hne : g <> []).
  { apply in_map_iff in Hk. destruct Hk as [r [Hr Hin]]. intro E.
    assert (H : In r g) by (apply get_group_In; auto).
    rewrite E in H. exact H. }
  assert (Hg : forall r, In r g ->
            feq (Merged.Distance_KM r) (fin 0) /\ positive (Merged.Total_Cost r)).
  { intros r Hr. apply get_group_In in Hr. apply Hrows; apply Hr. }
  assert (Hdist : exists m, mean (map Merged.Distance_KM g) = fin m /\ m == 0).
  { destruct (Qsum_zero (map Merged.Distance_KM g)) as [Hf Hz].
    - apply Forall_forall. intros d Hd. apply in_map_iff in Hd.
      destruct Hd as [r [<- Hr]]. apply Hg. exact Hr.
    - destruct (mean_is_fin (map Merged.Distance_KM g)) as [m [E Hm]].
      + intro E. apply map_eq_nil in E. exact (Hne E).
      + exact Hf.
      + exists m. split; [exact E|]. rewrite Hm, Hz. unfold Qdiv.
        apply Qmult_0_l. }
  assert (Hcost : positive (mean (map Merged.Total_Cost g))).
  { apply mean_positive.
    - intro E. apply map_eq_nil in E. exact (Hne E).
    - apply Forall_forall. intros c Hc. apply in_map_iff in Hc.
      destruct Hc as [r [<- Hr]]. apply Hg. exact Hr. }
  destruct Hdist as [m [Em Hm]].
  exists (RouteEfficiency.mk k (mean (map Merged.Delivery_Delay_Days g))
            (mean (map Merged.Total_Cost g)) (mean (map Merged.Distance_KM g))
            (fdiv (mean (map Merged.Total_Cost g)) (mean (map Merged.Distance_KM g)))).
  split; [|split; [reflexivity | split]].
  - unfold route_efficiency, groupby. rewrite map_map.
    apply in_map_iff. exists k. split; [reflexivity|].
    apply In_group_keys. exact Hk.
  - cbn [RouteEfficiency.Distance_KM]. rewrite Em. exact Hm.
  - cbn [RouteEfficiency.Cost_per_KM]. rewrite Em.
    unfold positive in Hcost.
    destruct (mean (map Merged.Total_Cost g)) as [| |q|]; try discriminate.
    + unfold fdiv. apply Qeq_bool_iff in Hm. rewrite Hm.
      cbn [flt] in Hcost. rewrite Hcost.
      assert (E : Qeq_bool q 0 = false).
      { destruct (Qeq_bool q 0) eqn:E; [|reflexivity].
        apply Qeq_bool_iff in E. apply Qlt_bool_iff in Hcost.
        rewrite E in Hcost. exfalso. exact (Qlt_irrefl 0 Hcost). }
      rewrite E. reflexivity.
    + unfold fdiv.
      assert (F : Qlt_bool m 0 = false).
      { apply Qlt_bool_false_iff. rewrite Hm. apply Qle_refl. }
      rewrite F. reflexivity.
Qed.

Lemma zero_distance_route_cost_per_km_witness :
  exists row,
    In row (route_efficiency
              (merged (load_data [Sample.order_1] [] [Sample.route_1] [] [] []
                         [Sample.cost_1]))) /\
    RouteEfficiency.Route row = "Pune-Goa" /\
    RouteEfficiency.Cost_per_KM row = inf.
Proof.
  destruct (zero_distance_route_cost_per_km
              (merged (load_data [Sample.order_1] [] [Sample.route_1] [] [] []
                         [Sample.cost_1])) "Pune-Goa") as (row & H1 & H2 & _ & H3).
  - vm_compute. left. reflexivity.
  - intros r [<-|[]] _. split; vm_compute; reflexivity.
  - exists row. repeat split; assumption.
Defined.

(* ================================================================== *)
(** ** The default carrier selection of [main] *)

(** X22. The carrier filter starts with the first three carriers of the unified
    set, in order of first appearance (all of them when there are at most
    three), each once.  Under this selection the filtered view holds no
    record of a fourth carrier and no record without carrier. *)
Theorem default_carrier_selection
    (priorities : list string) (selected_categories : list cell)
    (merged : list Merged.row) :
  default_carriers merged = firstn 3 (carriers merged) /\
  (List.length (default_carriers merged) <= 3)%nat /\
  NoDup (default_carriers merged) /\
  (forall c, In c (default_carriers merged) ->
             In (Some c) (map Merged.Carrier merged)) /\
  ((List.length (carriers merged) <= 3)%nat ->
   forall c, In (Some c) (map Merged.Carrier merged) ->
             In c (default_carriers merged)) /\
  (default_carriers merged <> [] ->
   forall r,
     In r (filtered_data priorities (default_carriers merged)
             selected_categories merged) ->
     exists c, In c (default_carriers merged) /\ Merged.Carrier r = Some c).
Proof.
  assert (E : default_carriers merged = firstn 3 (carriers merged)).
  { unfold default_carriers. rewrite Nat.min_comm. apply firstn_min_length. }
  split; [exact E|]. split; [|split; [|split; [|split]]].
  - rewrite E, length_firstn. lia.
  - rewrite E. apply NoDup_firstn. apply NoDup_unique.
  - intros c Hc. rewrite E in Hc. apply firstn_In in Hc.
    unfold carriers in Hc. apply In_unique, In_dropna_cells in Hc. exact Hc.
  - intros Hlen c Hc. rewrite E, firstn_all2 by exact Hlen.
    unfold carriers. apply In_unique, In_dropna_cells. exact Hc.
  - intros Hne r Hr. unfold filtered_data in Hr. cbv zeta in Hr.
    rewrite !filter_when, !filter_twice in Hr. apply filter_In in Hr.
    destruct Hr as [_ Hr]. rewrite !andb_true_iff in Hr.
    destruct Hr as (_ & Hr & _).
    destruct (default_carriers merged) as [|c0 cs] eqn:Ed; [congruence|].
    cbn [empty negb orb] in Hr. apply isin_Some in Hr. exact Hr.
Qed.

Lemma default_carrier_selection_witness :
  exists c,
    In c (default_carriers
            (merged (load_data [Sample.order_1; Sample.order_2] []
                       [Sample.route_1] [] [] [] []))) /\
    Merged.Carrier
      (metrics (Sample.order_1, None, Some Sample.route_1, None, None)) = Some c.
Proof.
  destruct (default_carrier_selection [] []
              (merged (load_data [Sample.order_1; Sample.order_2] []
                         [Sample.route_1] [] [] [] [])))
    as (_ & _ & _ & _ & _ & H).
  apply H.
  - vm_compute. discriminate.
  - vm_compute. left. reflexivity.
Defined.

(* ================================================================== *)
(** ** The order and revenue cards with one right-side row per order *)

Lemma joins_orders orders delivery routes costs feedback :
  NoDup (map Delivery.Order_ID delivery) ->
  NoDup (map Route.Order_ID routes) ->
  NoDup (map Cost.Order_ID costs) ->
  map (fun x : joined => fst (fst (fst (fst x))))
    (joins orders delivery routes costs feedback) = orders.
Proof.
  intros Hd Hr Hc. unfold joins, joined. cbv zeta.
  rewrite <- (map_map fst (fun y => fst (fst (fst y)))).
  rewrite merge_left_unique_right by apply NoDup_feedback_agg.
  rewrite <- (map_map fst (fun y => fst (fst y))).
  rewrite merge_left_unique_right by exact Hc.
  rewrite <- (map_map fst fst).
  rewrite merge_left_unique_right by exact Hr.
  apply merge_left_unique_right. exact Hd.
Qed.

(** X23. When no [Order_ID] occurs twice in the delivery, routes and costs
    tables, the total-orders card is the number of rows of the orders table
    and the total-revenue card the sum of their order values: no order is
    counted twice. *)
Theorem order_cards_of_unique_tables
    orders delivery routes vehicles warehouse feedback costs :
  NoDup (map Delivery.Order_ID delivery) ->
  NoDup (map Route.Order_ID routes) ->
  NoDup (map Cost.Order_ID costs) ->
  let kpi :=
    create_kpi_metrics
      (load_data orders delivery routes vehicles warehouse feedback costs) in
  total_orders kpi = List.length orders /\
  total_revenue kpi = sum (map Order.Order_Value_INR orders).
Proof.
  intros Hd Hr Hc kpi.
  pose proof (joins_orders orders delivery routes costs feedback Hd Hr Hc) as E.
  unfold kpi, create_kpi_metrics. cbn [total_orders total_revenue merged load_data].
  split.
  - rewrite length_map. rewrite <- E at 2. rewrite length_map. reflexivity.
  - rewrite map_map. rewrite <- E at 2. rewrite map_map.
    f_equal. apply map_ext. intros [[[[o d] t] c] f]. reflexivity.
Qed.

Lemma order_cards_of_unique_tables_witness :
  total_orders
    (create_kpi_metrics
       (load_data [Sample.order_1; Sample.order_2] [Sample.delivery_1]
          [Sample.route_1] [] [] [] [Sample.cost_1])) = 2%nat.
Proof.
  apply (order_cards_of_unique_tables [Sample.order_1; Sample.order_2]
           [Sample.delivery_1] [Sample.route_1] [] [] [] [Sample.cost_1]);
    simpl; (constructor; [simpl; tauto | constructor]).
Defined.
